(** * VoiceHackathon: the RAG activation workflow of [app/main.py]

    A shallow embedding of the two coroutines of [app/main.py],
    [process_rag] and [handle_conversation], and the properties of the
    RAG activation workflow that hold (or fail) on them.

    The program talks to one upstream HTTP API through [requests] and
    signals every failure by raising.  It is embedded in a state and
    exception monad: the state is the trace of upstream calls and sleeps
    performed so far, the upstream API is an oracle answering each call
    from the history, and a Python exception is the left summand of the
    result. *)

From Stdlib Require Import ZArith List Bool Ascii String DecimalString Lia.
From Stdlib Require Import Floats.SpecFloat.
Import ListNotations.

Set Warnings "-register-all".

Open Scope string_scope.
Open Scope Z_scope.

(** ** Values

    The Python objects produced by [Response.json()]: [None], booleans,
    integers, floats, strings, lists and dicts.  A dict keeps its keys in
    insertion order; it is an association list read and written at the
    first binding of a key (a parsed JSON object has no duplicate key). *)

Inductive json : Type :=
| JNull
| JBool (b : bool)
| JInt (z : Z)
| JFloat (f : spec_float)
| JStr (s : string)
| JArr (items : list json)
| JObj (fields : list (string * json)).

Definition dict := list (string * json).

Fixpoint dict_get (k : string) (d : dict) : option json :=
  match d with
  | [] => None
  | (k', v) :: d' => if String.eqb k k' then Some v else dict_get k d'
  end.

(** [d[k] = v]: the value of an existing key is replaced where it stands,
    a new key goes to the end. *)
Fixpoint dict_set (k : string) (v : json) (d : dict) : dict :=
  match d with
  | [] => [(k, v)]
  | (k', v') :: d' =>
      if String.eqb k k' then (k', v) :: d' else (k', v') :: dict_set k v d'
  end.

Definition keys (d : dict) : list string := map fst d.

(** ** Exceptions *)

Inductive Exception : Type :=
| HTTPException (status_code : Z) (detail : string)
| KeyError (key : string)
| TypeError (message : string)
| AttributeError (message : string)
| IndexError (message : string)
| LibraryError (class_name : string) (message : string).
    (* a fault raised inside a library call: a [requests] exception, a JSON
       decoding error, a validation error; [message] is its [str()] *)

Definition Result (A : Type) : Type := (Exception + A)%type.

Definition type_name (v : json) : string :=
  match v with
  | JNull => "NoneType"
  | JBool _ => "bool"
  | JInt _ => "int"
  | JFloat _ => "float"
  | JStr _ => "str"
  | JArr _ => "list"
  | JObj _ => "dict"
  end.

(** [o[k]] for a string key [k]. *)
Definition getitem (o : json) (k : string) : Result json :=
  match o with
  | JObj d =>
      match dict_get k d with
      | Some v => inr v
      | None => inl (KeyError k)
      end
  | JArr _ => inl (TypeError "list indices must be integers or slices, not str")
  | JStr _ => inl (TypeError "string indices must be integers, not 'str'")
  | _ => inl (TypeError ("'" ++ type_name o ++ "' object is not subscriptable"))
  end.

(** [o[k] = v] for a string key [k]. *)
Definition setitem (o : json) (k : string) (v : json) : Result json :=
  match o with
  | JObj d => inr (JObj (dict_set k v d))
  | JArr _ => inl (TypeError "list indices must be integers or slices, not str")
  | _ =>
      inl (TypeError
             ("'" ++ type_name o ++ "' object does not support item assignment"))
  end.

(** [o.get(k)]: only a dict has the method; a missing key gives [None]. *)
Definition py_get (o : json) (k : string) : Result json :=
  match o with
  | JObj d =>
      match dict_get k d with
      | Some v => inr v
      | None => inr JNull
      end
  | _ =>
      inl (AttributeError
             ("'" ++ type_name o ++ "' object has no attribute 'get'"))
  end.

(** [v == s] for a string [s]: no other kind of value equals a string. *)
Definition eq_str (v : json) (s : string) : bool :=
  match v with
  | JStr s' => String.eqb s' s
  | _ => false
  end.

(** Truth value of an object, as tested by [if doc_id:]. *)
Definition truthy (v : json) : bool :=
  match v with
  | JNull => false
  | JBool b => b
  | JInt z => negb (z =? 0)
  | JFloat (S754_zero _) => false
  | JFloat _ => true
  | JStr s => negb (String.eqb s "")
  | JArr l => match l with [] => false | _ => true end
  | JObj d => match d with [] => false | _ => true end
  end.

(** What [json.dumps(v, allow_nan=False)] accepts, as [requests] calls it
    on a [json=] body: every float in the document is finite.  (The
    parser of [Response.json()] gives an infinite float for a literal out
    of range and takes the literals NaN and Infinity.) *)
Fixpoint serialisable (v : json) : bool :=
  match v with
  | JFloat (S754_infinity _) => false
  | JFloat S754_nan => false
  | JArr items => forallb serialisable items
  | JObj fields =>
      forallb (fun kv => match kv with (_, x) => serialisable x end) fields
  | _ => true
  end.

(** [s.lower()] on the ASCII letters.  On UTF-8 text this decides
    membership in a list of ASCII words exactly as Python does, unless a
    word contains [k] (the Kelvin sign lowers to it). *)
Definition lower_ascii (c : ascii) : ascii :=
  let n := nat_of_ascii c in
  if (Nat.leb 65 n && Nat.leb n 90)%bool then ascii_of_nat (n + 32) else c.

Fixpoint lower (s : string) : string :=
  match s with
  | EmptyString => EmptyString
  | String c s' => String (lower_ascii c) (lower s')
  end.

Fixpoint str_in (s : string) (l : list string) : bool :=
  match l with
  | [] => false
  | x :: l' => (String.eqb s x || str_in s l')%bool
  end.

(** Two characters that are the same up to the case of an ASCII letter,
    and two texts that are so character by character. *)
Definition is_upper (c : ascii) : bool :=
  let n := nat_of_ascii c in (Nat.leb 65 n && Nat.leb n 90)%bool.

Definition same_letter (c c' : ascii) : bool :=
  (Ascii.eqb c c'
   || (is_upper c && Nat.eqb (nat_of_ascii c + 32) (nat_of_ascii c'))
   || (is_upper c' && Nat.eqb (nat_of_ascii c' + 32) (nat_of_ascii c)))%bool.

Fixpoint same_ignoring_case (s s' : string) : bool :=
  match s, s' with
  | EmptyString, EmptyString => true
  | String c r, String c' r' =>
      (same_letter c c' && same_ignoring_case r r')%bool
  | _, _ => false
  end.

(** The fault of [requests] on a [json=] body that cannot be serialised;
    the wording of its description varies with the release. *)
Definition invalid_json_error : Exception :=
  LibraryError "InvalidJSONError"
    "Out of range float values are not JSON compliant".

(** ** Request models *)

Record Message : Type := mkMessage { role : string; content : string }.

Record ConversationRequest : Type := mkConversationRequest {
  messages : list Message;
  conv_agent_id : string;
  conv_api_key : string
}.

Record RAGRequest : Type := mkRAGRequest {
  document_id : string;
  agent_id : string;
  api_key : string;
  embedding_model : string;
  max_documents_length : Z
}.

Definition default_embedding_model : string := "e5_mistral_7b_instruct".
Definition default_max_documents_length : Z := 10000.

(** [msg.dict()] *)
Definition Message_dict (m : Message) : json :=
  JObj [("role", JStr (role m)); ("content", JStr (content m))].

(** [l[-1]] *)
Definition last_item {A : Type} (l : list A) : Result A :=
  match rev l with
  | [] => inl (IndexError "list index out of range")
  | x :: _ => inr x
  end.

(** ** The upstream API and the trace *)

Inductive Method : Type := GET | POST | PUT.

Record Call : Type := mkCall {
  method : Method;
  url : string;
  xi_api_key : string;
  body : option json
}.

(** A response: its status code and what [.json()] gives on it, a parsed
    value or the decoding fault. *)
Record Response : Type := mkResponse {
  status_code : Z;
  json_result : Result json
}.

Inductive Outcome : Type :=
| Raises (e : Exception)
| Responds (r : Response).

Inductive Event : Type :=
| EvRequest (c : Call)
| EvSleep (seconds : Z).

Definition Trace := list Event.

(** The upstream API answers a call from everything that happened before. *)
Definition World := Trace -> Call -> Outcome.

(** ** The monad *)

Definition M (A : Type) : Type := Trace -> Result A * Trace.

Definition ret {A : Type} (a : A) : M A := fun t => (inr a, t).

Definition raise {A : Type} (e : Exception) : M A := fun t => (inl e, t).

Definition bind {A B : Type} (m : M A) (f : A -> M B) : M B :=
  fun t =>
    match m t with
    | (inl e, t') => (inl e, t')
    | (inr a, t') => f a t'
    end.

Definition lift {A : Type} (r : Result A) : M A := fun t => (r, t).

(** [try: m  except Exception as e: h e] *)
Definition try_except {A : Type} (m : M A) (h : Exception -> M A) : M A :=
  fun t =>
    match m t with
    | (inl e, t') => h e t'
    | (inr a, t') => (inr a, t')
    end.

Notation "x <- m ;; k" := (bind m (fun x => k))
  (at level 61, m at next level, right associativity).

(** ** The four upstream calls of the workflow and the relay call *)

Definition base_url : string :=
  "https://api.elevenlabs.io/v1/conversational-ai/".

Definition index_url (request : RAGRequest) : string :=
  base_url ++ "knowledge-base/" ++ document_id request ++ "/rag-index".

Definition agent_url (request : RAGRequest) : string :=
  base_url ++ "agents/" ++ agent_id request.

Definition conversation_url (request : ConversationRequest) : string :=
  base_url ++ "agents/" ++ conv_agent_id request ++ "/conversation".

Definition index_post (request : RAGRequest) : Call :=
  mkCall POST (index_url request) (api_key request)
    (Some (JObj [("model", JStr (embedding_model request))])).

Definition index_get (request : RAGRequest) : Call :=
  mkCall GET (index_url request) (api_key request) None.

Definition agent_get (request : RAGRequest) : Call :=
  mkCall GET (agent_url request) (api_key request) None.

Definition agent_put (request : RAGRequest) (config : json) : Call :=
  mkCall PUT (agent_url request) (api_key request) (Some config).

Definition conversation_post (request : ConversationRequest) : Call :=
  mkCall POST (conversation_url request) (conv_api_key request)
    (Some (JObj [("messages", JArr (map Message_dict (messages request)))])).

(** The status polls of a request in a trace. *)
Definition call_eqb_index_get (request : RAGRequest) (c : Call) : bool :=
  match method c, body c with
  | GET, None =>
      (String.eqb (url c) (index_url request)
       && String.eqb (xi_api_key c) (api_key request))%bool
  | _, _ => false
  end.

Definition is_status_call (request : RAGRequest) (ev : Event) : bool :=
  match ev with
  | EvRequest c => call_eqb_index_get request c
  | EvSleep _ => false
  end.

Definition status_calls (request : RAGRequest) (t : Trace) : nat :=
  List.length (filter (is_status_call request) t).

Definition is_request (ev : Event) : bool :=
  match ev with
  | EvRequest _ => true
  | EvSleep _ => false
  end.

Definition requests_made (t : Trace) : nat :=
  List.length (filter is_request t).

(** ** Concrete upstreams and inputs, for the scenarios *)

(** The upstream that answers the n-th call with the n-th outcome of a
    script and refuses the connection once the script is over. *)
Definition scripted (script : list Outcome) : World :=
  fun t _ =>
    nth (requests_made t) script
      (Raises (LibraryError "ConnectionError" "connection refused")).

Definition ok (j : json) : Outcome := Responds (mkResponse 200 (inr j)).

Definition status_body (s : string) : json := JObj [("status", JStr s)].

(** [str()] of an [HTTPException] as the current framework prints it:
    the status code, a colon, the detail. *)
Definition str_code_detail (c : Z) (d : string) : string :=
  DecimalString.NilZero.string_of_int (Z.to_int c) ++ ": " ++ d.

(** A strict validation of a [str] field. *)
Definition reject_non_str (v : json) : Result string :=
  inl (LibraryError "ValidationError" "Input should be a valid string").

Definition sample_request : RAGRequest :=
  mkRAGRequest "b" "agent-1" "secret"
    default_embedding_model default_max_documents_length.

Definition sample_config (kb : list json) : json :=
  JObj [("name", JStr "helper");
        ("agent",
          JObj [("first_message", JStr "hello");
                ("prompt",
                  JObj [("prompt", JStr "You are helpful.");
                        ("knowledge_base", JArr kb);
                        ("temperature", JInt 0)]);
                ("language", JStr "en")]);
        ("tags", JArr [JStr "demo"])].

Definition entry (id mode : string) : json :=
  JObj [("type", JStr "file"); ("id", JStr id); ("usage_mode", JStr mode)].

Definition two_entries : list json :=
  [entry "a" "prompt"; entry "b" "prompt"].

(** What the workflow is to write back for [sample_config two_entries] and
    the document ["b"]. *)
Definition written_sample : json :=
  JObj [("name", JStr "helper");
        ("agent",
          JObj [("first_message", JStr "hello");
                ("prompt",
                  JObj [("prompt", JStr "You are helpful.");
                        ("knowledge_base",
                          JArr [entry "a" "prompt"; entry "b" "auto"]);
                        ("temperature", JInt 0);
                        ("rag",
                          JObj [("enabled", JBool true);
                                ("embedding_model",
                                  JStr "e5_mistral_7b_instruct");
                                ("max_documents_length", JInt 10000)])]);
                ("language", JStr "en")]);
        ("tags", JArr [JStr "demo"])].

(** Every call accepted, one poll reporting SUCCEEDED, the fetch giving
    [sample_config kb]. *)
Definition smooth_upstream (kb : list json) : World :=
  scripted [ok JNull; ok (status_body "SUCCEEDED"); ok (sample_config kb);
            ok JNull].

(** Every call accepted; the status polls report PENDING three times,
    then SUCCEEDED. *)
Definition pending_then_succeeded (request : RAGRequest) : World :=
  fun t c =>
    if call_eqb_index_get request c then
      ok (status_body (if (status_calls request t <? 3)%nat
                       then "PENDING" else "SUCCEEDED"))
    else
      match method c with
      | GET => ok (sample_config two_entries)
      | _ => ok JNull
      end.

(** Every call accepted; the status polls report PENDING for ever. *)
Definition always_pending (request : RAGRequest) : World :=
  fun t c =>
    if call_eqb_index_get request c then ok (status_body "PENDING")
    else
      match method c with
      | GET => ok (sample_config two_entries)
      | _ => ok JNull
      end.

Definition empty_talk : ConversationRequest :=
  mkConversationRequest [] "agent-1" "secret".

(** Conversations ending on a farewell or not, for the agent and key of
    [sample_request]. *)
Definition talk (last : string) : ConversationRequest :=
  mkConversationRequest
    [mkMessage "user" "What is in the report?"; mkMessage "user" last]
    "agent-1" "secret".

Definition relay_answer : list (string * json) :=
  [("reply", JStr "See you."); ("document_id", JStr "b")].

(** ** The program *)

Section Workflow.

(** What [str()] makes of an [HTTPException] belongs to the web framework
    and changed between its releases; it is left open. *)
Variable str_HTTPException : Z -> string -> string.

(** What the validation of a [str] field makes of a value that is not a
    string (a coercion or a validation error) belongs to the model
    library; it is left open. *)
Variable validate_non_str : json -> Result string.

Variable upstream : World.

(** [str(e)].  The [repr] of a [KeyError]'s key is the key between single
    quotes for the keys this program subscripts with ([agent], [prompt],
    [knowledge_base], [id]). *)
Definition str (e : Exception) : string :=
  match e with
  | HTTPException c d => str_HTTPException c d
  | KeyError k => "'" ++ k ++ "'"
  | TypeError m => m
  | AttributeError m => m
  | IndexError m => m
  | LibraryError _ m => m
  end.

(** [requests.post], [requests.get], [requests.put]: the call is recorded
    and the upstream answers; a transport fault is raised. *)
Definition send (c : Call) : M Response :=
  fun t =>
    match upstream t c with
    | Raises e => (inl e, (t ++ [EvRequest c])%list)
    | Responds r => (inr r, (t ++ [EvRequest c])%list)
    end.

(** With [json=j] the body is serialised before anything is sent. *)
Definition requests_post (u key : string) (j : json) : M Response :=
  if serialisable j then send (mkCall POST u key (Some j))
  else raise invalid_json_error.

Definition requests_get (u key : string) : M Response :=
  send (mkCall GET u key None).

Definition requests_put (u key : string) (j : json) : M Response :=
  if serialisable j then send (mkCall PUT u key (Some j))
  else raise invalid_json_error.

(** [time.sleep(n)] blocks and returns [None]. *)
Definition time_sleep (n : Z) : M json :=
  fun t => (inr JNull, (t ++ [EvSleep n])%list).

(** [await v] on a value that is no awaitable; none of the values of
    [json] is one. *)
Definition await (v : json) : M json :=
  raise (TypeError
           ("object " ++ type_name v ++ " can't be used in 'await' expression")).

Definition max_retries : Z := 10.

(** The [while retry_count < max_retries] loop; it gives [retry_count] as
    it stands when the loop is left.  [fuel] bounds the iterations. *)
Fixpoint poll (fuel : nat) (request : RAGRequest) (retry_count : Z) : M Z :=
  match fuel with
  | O => ret retry_count
  | S fuel' =>
      if retry_count <? max_retries then
        status_response <- requests_get (index_url request) (api_key request) ;;
        if negb (status_code status_response =? 200) then
          raise (HTTPException (status_code status_response)
                   "Failed to check indexing status")
        else
          parsed <- lift (json_result status_response) ;;
          status <- lift (py_get parsed "status") ;;
          if eq_str status "SUCCEEDED" then ret retry_count
          else if eq_str status "FAILED" then
            raise (HTTPException 400 "Failed to index document")
          else
            let retry_count := retry_count + 1 in
            slept <- time_sleep 5 ;;
            _ <- await slept ;;
            poll fuel' request retry_count
      else ret retry_count
  end.

(** The RAG sub-object written at [agent_config["agent"]["prompt"]["rag"]]. *)
Definition rag_config (request : RAGRequest) : json :=
  JObj [("enabled", JBool true);
        ("embedding_model", JStr (embedding_model request));
        ("max_documents_length", JInt (max_documents_length request))].

(** A parsed document is a tree without sharing, so the assignment inside
    a nested dict is the update of the tree along the path to it. *)
Definition enable_rag (request : RAGRequest) (agent_config : json)
  : Result json :=
  match getitem agent_config "agent" with
  | inl e => inl e
  | inr agent =>
      match getitem agent "prompt" with
      | inl e => inl e
      | inr prompt =>
          match setitem prompt "rag" (rag_config request) with
          | inl e => inl e
          | inr prompt' =>
              match setitem agent "prompt" prompt' with
              | inl e => inl e
              | inr agent' => setitem agent_config "agent" agent'
              end
          end
      end
  end.

(** The body of [for i, doc in enumerate(kb)] over the items of a list:
    [kb[i]] is [doc]. *)
Fixpoint update_docs (request : RAGRequest) (docs : list json)
  : Result (list json) :=
  match docs with
  | [] => inr []
  | doc :: rest =>
      match getitem doc "id" with
      | inl e => inl e
      | inr id =>
          match (if eq_str id (document_id request)
                 then setitem doc "usage_mode" (JStr "auto")
                 else inr doc) with
          | inl e => inl e
          | inr doc' =>
              match update_docs request rest with
              | inl e => inl e
              | inr rest' => inr (doc' :: rest')
              end
          end
      end
  end.

(** [for i, doc in enumerate(kb): ...] on whatever [kb] is: a list gives
    its items; a dict gives its keys and a string its characters, on the
    first of which [doc["id"]] raises; anything else is not iterable. *)
Definition update_kb (request : RAGRequest) (kb : json) : Result json :=
  match kb with
  | JArr docs =>
      match update_docs request docs with
      | inl e => inl e
      | inr docs' => inr (JArr docs')
      end
  | JObj [] => inr kb
  | JObj ((k, _) :: _) =>
      match getitem (JStr k) "id" with
      | inl e => inl e
      | inr _ => inr kb
      end
  | JStr EmptyString => inr kb
  | JStr (String c _) =>
      match getitem (JStr (String c EmptyString)) "id" with
      | inl e => inl e
      | inr _ => inr kb
      end
  | _ => inl (TypeError ("'" ++ type_name kb ++ "' object is not iterable"))
  end.

Definition update_usage_mode (request : RAGRequest) (agent_config : json)
  : Result json :=
  match getitem agent_config "agent" with
  | inl e => inl e
  | inr agent =>
      match getitem agent "prompt" with
      | inl e => inl e
      | inr prompt =>
          match getitem prompt "knowledge_base" with
          | inl e => inl e
          | inr kb =>
              match update_kb request kb with
              | inl e => inl e
              | inr kb' =>
                  match setitem prompt "knowledge_base" kb' with
                  | inl e => inl e
                  | inr prompt' =>
                      match setitem agent "prompt" prompt' with
                      | inl e => inl e
                      | inr agent' => setitem agent_config "agent" agent'
                      end
                  end
              end
          end
      end
  end.

Definition success : json :=
  JObj [("status", JStr "success");
        ("message", JStr "RAG configuration completed successfully")].

(** The [try] block of [process_rag]. *)
Definition process_rag_body (request : RAGRequest) : M json :=
  index_response <-
    requests_post (index_url request) (api_key request)
      (JObj [("model", JStr (embedding_model request))]) ;;
  if negb (status_code index_response =? 200) then
    raise (HTTPException (status_code index_response)
             "Failed to index document")
  else
    retry_count <- poll (Z.to_nat max_retries) request 0 ;;
    if retry_count >=? max_retries then
      raise (HTTPException 408 "Timeout waiting for document indexing")
    else
      agent_response <- requests_get (agent_url request) (api_key request) ;;
      if negb (status_code agent_response =? 200) then
        raise (HTTPException (status_code agent_response)
                 "Failed to get agent configuration")
      else
        agent_config <- lift (json_result agent_response) ;;
        agent_config <- lift (enable_rag request agent_config) ;;
        agent_config <- lift (update_usage_mode request agent_config) ;;
        update_response <-
          requests_put (agent_url request) (api_key request) agent_config ;;
        if negb (status_code update_response =? 200) then
          raise (HTTPException (status_code update_response)
                   "Failed to update agent configuration")
        else ret success.

(** [except Exception as e: raise HTTPException(status_code=500,
    detail=str(e))].  [HTTPException] is an [Exception]: the handler also
    takes the failures the [try] block raises itself. *)
Definition process_rag (request : RAGRequest) : M json :=
  try_except (process_rag_body request)
    (fun e => raise (HTTPException 500 (str e))).

(** [RAGRequest(document_id=doc_id, agent_id=..., api_key=...)]: the two
    defaults are taken and [doc_id] is validated as a [str]. *)
Definition RAGRequest_new (doc_id : json) (agent key : string)
  : Result RAGRequest :=
  match (match doc_id with
         | JStr s => inr s
         | _ => validate_non_str doc_id
         end) with
  | inl e => inl e
  | inr s =>
      inr (mkRAGRequest s agent key
             default_embedding_model default_max_documents_length)
  end.

(** The [try] block of [handle_conversation]. *)
Definition handle_conversation_body (request : ConversationRequest) : M json :=
  conversation_response <-
    requests_post (conversation_url request) (conv_api_key request)
      (JObj [("messages", JArr (map Message_dict (messages request)))]) ;;
  if negb (status_code conversation_response =? 200) then
    raise (HTTPException (status_code conversation_response)
             "Failed to process conversation")
  else
    conversation_data <- lift (json_result conversation_response) ;;
    last_message <- lift (last_item (messages request)) ;;
    if str_in (lower (content last_message)) ["goodbye"; "bye"; "end"] then
      doc_id <- lift (py_get conversation_data "document_id") ;;
      if truthy doc_id then
        rag_request <-
          lift (RAGRequest_new doc_id (conv_agent_id request)
                  (conv_api_key request)) ;;
        _ <- process_rag rag_request ;;
        conversation_data <-
          lift (setitem conversation_data "rag_status" (JStr "processed")) ;;
        ret conversation_data
      else ret conversation_data
    else ret conversation_data.

Definition handle_conversation (request : ConversationRequest) : M json :=
  try_except (handle_conversation_body request)
    (fun e => raise (HTTPException 500 (str e))).

(** ** What the write-back may change

    The relation between the fetched configuration and the one written
    back, stated on what can be read from the two documents. *)

(** Two dicts agree on every key outside [ks]. *)
Definition same_but (ks : list string) (d d' : dict) : Prop :=
  forall k, ~ In k ks -> dict_get k d' = dict_get k d.

(** The keys stay where they are; [k] is added last when it was absent. *)
Definition keys_after_set (k : string) (d d' : dict) : Prop :=
  keys d' =
  match dict_get k d with
  | Some _ => keys d
  | None => (keys d ++ [k])%list
  end.

(** An entry whose [id] is the document's has [usage_mode] set to
    ["auto"] and nothing else touched; any other entry is as it was. *)
Definition entry_written (request : RAGRequest) (doc doc' : json) : Prop :=
  exists e id,
    doc = JObj e /\ dict_get "id" e = Some id /\
    if eq_str id (document_id request)
    then exists e',
        doc' = JObj e' /\
        dict_get "usage_mode" e' = Some (JStr "auto") /\
        same_but ["usage_mode"] e e' /\
        keys_after_set "usage_mode" e e'
    else doc' = doc.

Definition kb_written (request : RAGRequest) (kb kb' : json) : Prop :=
  (exists docs docs',
      kb = JArr docs /\ kb' = JArr docs' /\
      Forall2 (entry_written request) docs docs')
  \/ ((kb = JObj [] \/ kb = JStr "") /\ kb' = kb).

Definition written_back (request : RAGRequest) (config config' : json)
  : Prop :=
  exists d a p kb d' a' p' kb',
    config = JObj d /\
    dict_get "agent" d = Some (JObj a) /\
    dict_get "prompt" a = Some (JObj p) /\
    dict_get "knowledge_base" p = Some kb /\
    config' = JObj d' /\
    dict_get "agent" d' = Some (JObj a') /\
    dict_get "prompt" a' = Some (JObj p') /\
    dict_get "knowledge_base" p' = Some kb' /\
    keys d' = keys d /\ same_but ["agent"] d d' /\
    keys a' = keys a /\ same_but ["prompt"] a a' /\
    keys_after_set "rag" p p' /\ same_but ["rag"; "knowledge_base"] p p' /\
    dict_get "rag" p' = Some (rag_config request) /\
    kb_written request kb kb'.

(** The configuration the data model describes, as far as the workflow
    reads it: [agent.prompt.knowledge_base] is a list of entries, each a
    dict with an [id]. *)
Definition has_id (doc : json) : bool :=
  match doc with
  | JObj e => match dict_get "id" e with Some _ => true | None => false end
  | _ => false
  end.

Definition knowledge_base (config : json) : option (list json) :=
  match config with
  | JObj d =>
      match dict_get "agent" d with
      | Some (JObj a) =>
          match dict_get "prompt" a with
          | Some (JObj p) =>
              match dict_get "knowledge_base" p with
              | Some (JArr docs) => Some docs
              | _ => None
              end
          | _ => None
          end
      | _ => None
      end
  | _ => None
  end.

Definition well_formed_config (config : json) : bool :=
  match knowledge_base config with
  | Some docs => forallb has_id docs
  | None => false
  end.

(** The entry's [id] is the document's. *)
Definition matches (request : RAGRequest) (doc : json) : bool :=
  match doc with
  | JObj e =>
      match dict_get "id" e with
      | Some id => eq_str id (document_id request)
      | None => false
      end
  | _ => false
  end.

(** The entry's [usage_mode] is ["auto"]. *)
Definition is_auto (doc : json) : bool :=
  match doc with
  | JObj e =>
      match dict_get "usage_mode" e with
      | Some m => eq_str m "auto"
      | None => false
      end
  | _ => false
  end.

(** The fault of [await time.sleep(5)]: [time.sleep] gives [None]. *)
Definition await_error : Exception :=
  TypeError "object NoneType can't be used in 'await' expression".

(** Reading an upstream answer: accepted with status 200; the parsed
    document of an accepted answer; the [status] an accepted answer
    reports. *)
Definition accepted (o : Outcome) : bool :=
  match o with
  | Responds r => status_code r =? 200
  | Raises _ => false
  end.

Definition parsed (o : Outcome) : option json :=
  match o with
  | Responds r =>
      if status_code r =? 200 then
        match json_result r with
        | inr j => Some j
        | inl _ => None
        end
      else None
  | Raises _ => None
  end.

Definition reported_status (o : Outcome) : option json :=
  match parsed o with
  | Some j =>
      match py_get j "status" with
      | inr s => Some s
      | inl _ => None
      end
  | None => None
  end.

(** Lines 93 to 104 of [process_rag] as one step: the two assignments on
    the fetched configuration. *)
Definition mutate (request : RAGRequest) (config : json) : Result json :=
  match enable_rag request config with
  | inl e => inl e
  | inr c1 => update_usage_mode request c1
  end.

(** The test on the last message of a conversation. *)
Definition is_farewell (text : string) : bool :=
  str_in (lower text) ["goodbye"; "bye"; "end"].

(** The request [handle_conversation] builds for a document. *)
Definition rag_request_for (request : ConversationRequest) (doc : string)
  : RAGRequest :=
  mkRAGRequest doc (conv_agent_id request) (conv_api_key request)
    default_embedding_model default_max_documents_length.

(** An event of the workflow of a request: a call to one of its two URLs
    with its key, or the five-second sleep. *)
Definition workflow_event (request : RAGRequest) (ev : Event) : Prop :=
  match ev with
  | EvRequest c =>
      xi_api_key c = api_key request /\
      (url c = index_url request \/ url c = agent_url request)
  | EvSleep n => n = 5
  end.

(** How far a run of the workflow got: the submit was accepted; then the
    one poll reported SUCCEEDED; then the fetch gave a document. *)
Definition submitted (request : RAGRequest) (t : Trace) : Prop :=
  accepted (upstream t (index_post request)) = true.

Definition indexed (request : RAGRequest) (t : Trace) : Prop :=
  submitted request t /\
  reported_status
    (upstream (t ++ [EvRequest (index_post request)])%list
       (index_get request)) = Some (JStr "SUCCEEDED").

Definition fetched (request : RAGRequest) (t : Trace) (config : json)
  : Prop :=
  indexed request t /\
  parsed
    (upstream
       (t ++ [EvRequest (index_post request);
              EvRequest (index_get request)])%list
       (agent_get request)) = Some config.

(** The faults of the steps of the workflow, read off the upstream and
    the documents it gives: [step_fault request t e t'] says that in a run
    from the trace [t] a step faults with [e], the trace being [t'] then.
    A call can fail in transport, the body of an answer can fail to
    decode or be no dict, the wait after an unfinished poll faults, the
    fetched document can lack what the mutation reads, and the mutated
    document can fail to serialise. *)
Inductive step_fault (request : RAGRequest) (t : Trace)
  : Exception -> Trace -> Prop :=
| submit_transport (e : Exception) :
    upstream t (index_post request) = Raises e ->
    step_fault request t e (t ++ [EvRequest (index_post request)])%list
| poll_transport (e : Exception) :
    submitted request t ->
    upstream (t ++ [EvRequest (index_post request)])%list
      (index_get request) = Raises e ->
    step_fault request t e
      (t ++ [EvRequest (index_post request);
             EvRequest (index_get request)])%list
| poll_decoding (r : Response) (e : Exception) :
    submitted request t ->
    upstream (t ++ [EvRequest (index_post request)])%list
      (index_get request) = Responds r ->
    status_code r = 200 ->
    json_result r = inl e ->
    step_fault request t e
      (t ++ [EvRequest (index_post request);
             EvRequest (index_get request)])%list
| poll_no_dict (j : json) (e : Exception) :
    submitted request t ->
    parsed
      (upstream (t ++ [EvRequest (index_post request)])%list
         (index_get request)) = Some j ->
    py_get j "status" = inl e ->
    step_fault request t e
      (t ++ [EvRequest (index_post request);
             EvRequest (index_get request)])%list
| wait_fault (s : json) :
    submitted request t ->
    reported_status
      (upstream (t ++ [EvRequest (index_post request)])%list
         (index_get request)) = Some s ->
    s <> JStr "SUCCEEDED" ->
    s <> JStr "FAILED" ->
    step_fault request t await_error
      (t ++ [EvRequest (index_post request);
             EvRequest (index_get request); EvSleep 5])%list
| fetch_transport (e : Exception) :
    indexed request t ->
    upstream
      (t ++ [EvRequest (index_post request);
             EvRequest (index_get request)])%list
      (agent_get request) = Raises e ->
    step_fault request t e
      (t ++ [EvRequest (index_post request);
             EvRequest (index_get request);
             EvRequest (agent_get request)])%list
| fetch_decoding (r : Response) (e : Exception) :
    indexed request t ->
    upstream
      (t ++ [EvRequest (index_post request);
             EvRequest (index_get request)])%list
      (agent_get request) = Responds r ->
    status_code r = 200 ->
    json_result r = inl e ->
    step_fault request t e
      (t ++ [EvRequest (index_post request);
             EvRequest (index_get request);
             EvRequest (agent_get request)])%list
| mutation_fault (config : json) (e : Exception) :
    fetched request t config ->
    mutate request config = inl e ->
    step_fault request t e
      (t ++ [EvRequest (index_post request);
             EvRequest (index_get request);
             EvRequest (agent_get request)])%list
| serialisation_fault (config config' : json) :
    fetched request t config ->
    mutate request config = inr config' ->
    serialisable config' = false ->
    step_fault request t invalid_json_error
      (t ++ [EvRequest (index_post request);
             EvRequest (index_get request);
             EvRequest (agent_get request)])%list
| write_back_transport (config config' : json) (e : Exception) :
    fetched request t config ->
    mutate request config = inr config' ->
    serialisable config' = true ->
    upstream
      (t ++ [EvRequest (index_post request);
             EvRequest (index_get request);
             EvRequest (agent_get request)])%list
      (agent_put request config') = Raises e ->
    step_fault request t e
      (t ++ [EvRequest (index_post request);
             EvRequest (index_get request);
             EvRequest (agent_get request);
             EvRequest (agent_put request config')])%list.

(** The failures the try block raises itself, with the status of an
    answer or a fixed code. *)
Definition own_failure (e : Exception) : Prop :=
  exists code detail, e = HTTPException code detail.

(** ** Dictionaries *)

Lemma dict_get_set_same (k : string) (v : json) (d : dict) :
  dict_get k (dict_set k v d) = Some v.
Proof.
  induction d as [|[k' v'] d IH]; simpl.
  - now rewrite String.eqb_refl.
  - destruct (String.eqb k k') eqn:E; simpl; rewrite E; auto.
Qed.

Lemma dict_get_set_other (k k' : string) (v : json) (d : dict) :
  k' <> k -> dict_get k' (dict_set k v d) = dict_get k' d.
Proof.
  intros Hne. induction d as [|[k0 v0] d IH]; simpl.
  - destruct (String.eqb_spec k' k); congruence.
  - destruct (String.eqb_spec k k0) as [->|Hk]; simpl.
    + destruct (String.eqb_spec k' k0); congruence.
    + destruct (String.eqb_spec k' k0); auto.
Qed.

Lemma keys_dict_set (k : string) (v : json) (d : dict) :
  keys_after_set k d (dict_set k v d).
Proof.
  unfold keys_after_set, keys.
  induction d as [|[k' v'] d IH]; simpl; auto.
  destruct (String.eqb k k') eqn:E; simpl; auto.
  rewrite IH. destruct (dict_get k d); reflexivity.
Qed.

Lemma keys_dict_set_present (k : string) (v x : json) (d : dict) :
  dict_get k d = Some x -> keys (dict_set k v d) = keys d.
Proof.
  intros H. pose proof (keys_dict_set k v d) as K.
  unfold keys_after_set in K. now rewrite H in K.
Qed.

Lemma same_but_set (k : string) (v : json) (d : dict) :
  same_but [k] d (dict_set k v d).
Proof.
  intros k' Hk. apply dict_get_set_other. intros ->. apply Hk. now left.
Qed.

(** Dicts without a repeated key, as Python's are, are equal as soon as
    they have the same keys in the same order and the same values. *)
Lemma dict_ext (d d' : dict) :
  NoDup (keys d) -> keys d = keys d' ->
  (forall k, dict_get k d = dict_get k d') -> d = d'.
Proof.
  assert (forall (x : string) (l : dict),
             ~ In x (keys l) -> dict_get x l = None) as Hnone.
  { intros x l. induction l as [|[k0 v0] l IHl]; simpl; auto. intros Hn.
    destruct (String.eqb_spec x k0) as [->|]; [exfalso; auto|auto]. }
  revert d'. induction d as [|[k v] d IH]; intros [|[k' v'] d'] Hnd Hk Hg;
    simpl in *; try discriminate; auto.
  injection Hk as Hkk Hk. subst k'.
  pose proof (Hg k) as Hv. rewrite String.eqb_refl in Hv.
  injection Hv as Hv. subst v'.
  f_equal. inversion Hnd as [|? ? Hnotin Hnd']; subst.
  apply IH; auto.
  intros x. specialize (Hg x).
  destruct (String.eqb_spec x k) as [Heq|Hne]; [subst x|exact Hg].
  rewrite Hnone by assumption.
  rewrite Hnone; auto. unfold keys in *. now rewrite <- Hk.
Qed.

(** ** The mutation of the configuration *)

Lemma getitem_inr (o v : json) (k : string) :
  getitem o k = inr v -> exists d, o = JObj d /\ dict_get k d = Some v.
Proof.
  destruct o as [| | | | |l|d]; simpl; try discriminate.
  destruct (dict_get k d) eqn:E; try discriminate.
  intros [= ->]. eauto.
Qed.

Lemma setitem_inr (o o' v : json) (k : string) :
  setitem o k v = inr o' -> exists d, o = JObj d /\ o' = JObj (dict_set k v d).
Proof.
  destruct o as [| | | | |l|d]; simpl; try discriminate.
  intros [= <-]. eauto.
Qed.

Lemma enable_rag_inr (request : RAGRequest) (config config' : json) :
  enable_rag request config = inr config' ->
  exists d a p,
    config = JObj d /\
    dict_get "agent" d = Some (JObj a) /\
    dict_get "prompt" a = Some (JObj p) /\
    config' =
    JObj (dict_set "agent"
            (JObj (dict_set "prompt"
                     (JObj (dict_set "rag" (rag_config request) p)) a)) d).
Proof.
  unfold enable_rag. intros H.
  destruct (getitem config "agent") as [|agent] eqn:E1; try discriminate.
  destruct (getitem agent "prompt") as [|prompt] eqn:E2; try discriminate.
  destruct (setitem prompt "rag" (rag_config request)) as [|prompt'] eqn:E3;
    try discriminate.
  destruct (setitem agent "prompt" prompt') as [|agent'] eqn:E4;
    try discriminate.
  apply getitem_inr in E1 as (d & -> & Hd).
  apply getitem_inr in E2 as (a & -> & Ha).
  apply setitem_inr in E3 as (p & -> & ->).
  apply setitem_inr in E4 as (a0 & [= <-] & ->).
  apply setitem_inr in H as (d0 & [= <-] & ->).
  exists d, a, p. auto.
Qed.

Lemma update_docs_written (request : RAGRequest) (docs docs' : list json) :
  update_docs request docs = inr docs' ->
  Forall2 (entry_written request) docs docs'.
Proof.
  revert docs'. induction docs as [|doc rest IH]; simpl; intros docs' H.
  - injection H as <-. constructor.
  - destruct (getitem doc "id") as [|id] eqn:E1; try discriminate.
    destruct (if eq_str id (document_id request)
              then setitem doc "usage_mode" (JStr "auto") else inr doc)
      as [|doc'] eqn:E2; try discriminate.
    destruct (update_docs request rest) as [|rest'] eqn:E3; try discriminate.
    injection H as <-. constructor; auto.
    apply getitem_inr in E1 as (e & -> & He).
    exists e, id. repeat split; auto.
    destruct (eq_str id (document_id request)).
    + apply setitem_inr in E2 as (e0 & [= <-] & ->).
      eexists. repeat split.
      * apply dict_get_set_same.
      * apply same_but_set.
      * apply keys_dict_set.
    + now injection E2 as <-.
Qed.

Lemma update_kb_written (request : RAGRequest) (kb kb' : json) :
  update_kb request kb = inr kb' -> kb_written request kb kb'.
Proof.
  unfold update_kb. intros H.
  destruct kb as [| | | |s|docs|d]; try discriminate.
  - destruct s; [|discriminate].
    injection H as <-. right. auto.
  - destruct (update_docs request docs) as [|docs'] eqn:E; try discriminate.
    injection H as <-. left. exists docs, docs'.
    repeat split. now apply update_docs_written.
  - destruct d as [|[k v] d]; [|discriminate].
    injection H as <-. right. auto.
Qed.

Lemma update_usage_mode_inr (request : RAGRequest) (config config' : json) :
  update_usage_mode request config = inr config' ->
  exists d a p kb kb',
    config = JObj d /\
    dict_get "agent" d = Some (JObj a) /\
    dict_get "prompt" a = Some (JObj p) /\
    dict_get "knowledge_base" p = Some kb /\
    update_kb request kb = inr kb' /\
    config' =
    JObj (dict_set "agent"
            (JObj (dict_set "prompt"
                     (JObj (dict_set "knowledge_base" kb' p)) a)) d).
Proof.
  unfold update_usage_mode. intros H.
  destruct (getitem config "agent") as [|agent] eqn:E1; try discriminate.
  destruct (getitem agent "prompt") as [|prompt] eqn:E2; try discriminate.
  destruct (getitem prompt "knowledge_base") as [|kb] eqn:E3;
    try discriminate.
  destruct (update_kb request kb) as [|kb'] eqn:E4; try discriminate.
  destruct (setitem prompt "knowledge_base" kb') as [|prompt'] eqn:E5;
    try discriminate.
  destruct (setitem agent "prompt" prompt') as [|agent'] eqn:E6;
    try discriminate.
  apply getitem_inr in E1 as (d & -> & Hd).
  apply getitem_inr in E2 as (a & -> & Ha).
  apply getitem_inr in E3 as (p & -> & Hp).
  apply setitem_inr in E5 as (p0 & [= <-] & ->).
  apply setitem_inr in E6 as (a0 & [= <-] & ->).
  apply setitem_inr in H as (d0 & [= <-] & ->).
  exists d, a, p, kb, kb'. auto 10.
Qed.

Lemma mutation_written_back (request : RAGRequest) (config c1 c2 : json) :
  enable_rag request config = inr c1 ->
  update_usage_mode request c1 = inr c2 ->
  written_back request config c2.
Proof.
  intros H1 H2.
  apply enable_rag_inr in H1 as (d & a & p & -> & Hd & Ha & ->).
  apply update_usage_mode_inr in H2
    as (d1 & a1 & p1 & kb & kb' & [= <-] & Hd1 & Ha1 & Hp1 & Hkb & ->).
  rewrite dict_get_set_same in Hd1. injection Hd1 as <-.
  rewrite dict_get_set_same in Ha1. injection Ha1 as <-.
  set (p1 := dict_set "rag" (rag_config request) p) in *.
  set (a1 := dict_set "prompt" (JObj p1) a) in *.
  set (d1 := dict_set "agent" (JObj a1) d) in *.
  set (p' := dict_set "knowledge_base" kb' p1).
  set (a' := dict_set "prompt" (JObj p') a1).
  exists d, a, p, kb, (dict_set "agent" (JObj a') d1), a', p', kb'.
  assert (forall k (x y : dict), same_but [k] x y ->
            forall z, same_but [k] y z -> same_but [k] x z) as Htrans.
  { intros k x y Hxy z Hyz k0 Hk0. rewrite Hyz, Hxy; auto. }
  assert (dict_get "knowledge_base" p = Some kb) as Hp.
  { unfold p1 in Hp1. now rewrite dict_get_set_other in Hp1 by discriminate. }
  repeat match goal with |- _ /\ _ => split end.
  - reflexivity.
  - exact Hd.
  - exact Ha.
  - exact Hp.
  - reflexivity.
  - apply dict_get_set_same.
  - apply dict_get_set_same.
  - apply dict_get_set_same.
  - rewrite (keys_dict_set_present _ _ (JObj a1)) by apply dict_get_set_same.
    now apply keys_dict_set_present with (x := JObj a).
  - apply Htrans with (y := d1); apply same_but_set.
  - unfold a'.
    rewrite (keys_dict_set_present _ _ (JObj p1)) by apply dict_get_set_same.
    now apply keys_dict_set_present with (x := JObj p).
  - apply Htrans with (y := a1); apply same_but_set.
  - unfold keys_after_set, p'.
    rewrite (keys_dict_set_present _ _ kb) by exact Hp1.
    apply keys_dict_set.
  - intros k Hk. unfold p', p1.
    rewrite !dict_get_set_other; auto; intros ->; apply Hk; simpl; auto.
  - unfold p'. rewrite dict_get_set_other by discriminate.
    apply dict_get_set_same.
  - now apply update_kb_written.
Qed.

(** ** The polling loop *)

Lemma poll_step (n : nat) (request : RAGRequest) (retry_count : Z) (t : Trace) :
  retry_count < max_retries ->
  poll (S n) request retry_count t =
  let t' := (t ++ [EvRequest (index_get request)])%list in
  match upstream t (index_get request) with
  | Raises e => (inl e, t')
  | Responds r =>
      if status_code r =? 200 then
        match json_result r with
        | inl e => (inl e, t')
        | inr j =>
            match py_get j "status" with
            | inl e => (inl e, t')
            | inr status =>
                if eq_str status "SUCCEEDED" then (inr retry_count, t')
                else if eq_str status "FAILED" then
                  (inl (HTTPException 400 "Failed to index document"), t')
                else (inl await_error, (t' ++ [EvSleep 5])%list)
            end
        end
      else
        (inl (HTTPException (status_code r) "Failed to check indexing status"),
         t')
  end.
Proof.
  intros Hlt. apply Z.ltb_lt in Hlt. cbn [poll]. rewrite Hlt.
  unfold bind, requests_get, send, index_get. cbv zeta.
  destruct (upstream t _) as [e|r]; [reflexivity|].
  destruct (status_code r =? 200); [|reflexivity]. cbn [negb].
  unfold lift.
  destruct (json_result r) as [e|j]; [reflexivity|].
  destruct (py_get j "status") as [e|status]; [reflexivity|].
  destruct (eq_str status "SUCCEEDED"); [reflexivity|].
  destruct (eq_str status "FAILED"); reflexivity.
Qed.

(** The loop does not depend on the fuel it is given, as long as there is
    some: no iteration is cut short by it. *)
Lemma poll_fuel (n m : nat) (request : RAGRequest) (retry_count : Z)
    (t : Trace) :
  poll (S n) request retry_count t = poll (S m) request retry_count t.
Proof.
  destruct (Z.ltb_spec retry_count max_retries) as [Hlt|Hge].
  - now rewrite !poll_step.
  - cbn [poll]. apply Z.ltb_ge in Hge. now rewrite Hge.
Qed.

(** A poll answers, or leaves the loop with the count it was entered
    with; the loop never goes round. *)
Lemma poll_leaves (n : nat) (request : RAGRequest) (retry_count rc : Z)
    (t t' : Trace) :
  poll n request retry_count t = (inr rc, t') -> rc = retry_count.
Proof.
  destruct n as [|n]; [now intros [= <- _]|].
  destruct (Z.ltb_spec retry_count max_retries) as [Hlt|Hge].
  - rewrite poll_step by assumption. cbv zeta.
    destruct (upstream t _) as [e|r]; [discriminate|].
    destruct (status_code r =? 200); [|discriminate].
    destruct (json_result r) as [e|j]; [discriminate|].
    destruct (py_get j "status") as [e|status]; [discriminate|].
    destruct (eq_str status "SUCCEEDED"); [now intros [= <- _]|].
    destruct (eq_str status "FAILED"); discriminate.
  - cbn [poll]. apply Z.ltb_ge in Hge. rewrite Hge. now intros [= <- _].
Qed.

(** ** The workflow, step by step *)

Lemma process_rag_body_steps (request : RAGRequest) (t : Trace) :
  process_rag_body request t =
  let t1 := (t ++ [EvRequest (index_post request)])%list in
  let t2 := (t1 ++ [EvRequest (index_get request)])%list in
  let t3 := (t2 ++ [EvRequest (agent_get request)])%list in
  match upstream t (index_post request) with
  | Raises e => (inl e, t1)
  | Responds r0 =>
      if status_code r0 =? 200 then
        match poll 1 request 0 t1 with
        | (inl e, t') => (inl e, t')
        | (inr _, _) =>
            match upstream t2 (agent_get request) with
            | Raises e => (inl e, t3)
            | Responds r2 =>
                if status_code r2 =? 200 then
                  match json_result r2 with
                  | inl e => (inl e, t3)
                  | inr config =>
                      match enable_rag request config with
                      | inl e => (inl e, t3)
                      | inr c1 =>
                          match update_usage_mode request c1 with
                          | inl e => (inl e, t3)
                          | inr c2 =>
                              let t4 :=
                                (t3 ++ [EvRequest (agent_put request c2)])%list
                              in
                              if serialisable c2 then
                                match upstream t3 (agent_put request c2) with
                                | Raises e => (inl e, t4)
                                | Responds r3 =>
                                    if status_code r3 =? 200
                                    then (inr success, t4)
                                    else
                                      (inl (HTTPException (status_code r3)
                                              "Failed to update agent configuration"),
                                       t4)
                                end
                              else (inl invalid_json_error, t3)
                          end
                      end
                  end
                else
                  (inl (HTTPException (status_code r2)
                          "Failed to get agent configuration"), t3)
            end
        end
      else
        (inl (HTTPException (status_code r0) "Failed to index document"), t1)
  end.
Proof.
  unfold process_rag_body. cbv zeta.
  unfold bind at 1. unfold requests_post.
  change (serialisable (JObj [("model", JStr (embedding_model request))]))
    with true. cbv iota. unfold send.
  fold (index_post request).
  destruct (upstream t _) as [e|r0]; [reflexivity|].
  destruct (status_code r0 =? 200); [|reflexivity]. cbn [negb].
  change (Z.to_nat max_retries) with 10%nat.
  unfold bind at 1. rewrite (poll_fuel 9 0).
  destruct (poll 1 request 0 _) as [[e|rc] t'] eqn:Hpoll; [reflexivity|].
  pose proof (poll_leaves _ _ _ _ _ _ Hpoll) as ->.
  change (0 >=? max_retries) with false. cbv iota.
  rewrite poll_step in Hpoll by reflexivity. cbv zeta in Hpoll.
  assert (t' = ((t ++ [EvRequest (index_post request)]) ++
                  [EvRequest (index_get request)])%list) as ->.
  { destruct (upstream _ (index_get request)) as [e|r]; [discriminate|].
    destruct (status_code r =? 200); [|discriminate].
    destruct (json_result r) as [e|j]; [discriminate|].
    destruct (py_get j "status") as [e|status]; [discriminate|].
    destruct (eq_str status "SUCCEEDED"); [now injection Hpoll as <-|].
    destruct (eq_str status "FAILED"); discriminate. }
  clear Hpoll.
  unfold bind, requests_get, requests_put, send, lift, raise, ret.
  fold (agent_get request).
  destruct (upstream _ (agent_get request)) as [e|r2]; [reflexivity|].
  destruct (status_code r2 =? 200); [|reflexivity]. cbn [negb].
  destruct (json_result r2) as [e|config]; [reflexivity|].
  destruct (enable_rag request config) as [e|c1]; [reflexivity|].
  destruct (update_usage_mode request c1) as [e|c2]; [reflexivity|].
  destruct (serialisable c2); [|reflexivity].
  fold (agent_put request c2).
  destruct (upstream _ (agent_put request c2)) as [e|r3]; [reflexivity|].
  destruct (status_code r3 =? 200); reflexivity.
Qed.

Lemma accepted_true (o : Outcome) :
  accepted o = true ->
  exists r, o = Responds r /\ (status_code r =? 200) = true.
Proof.
  destruct o as [e|r]; unfold accepted; [discriminate|]. eauto.
Qed.

Lemma parsed_some (o : Outcome) (j : json) :
  parsed o = Some j ->
  exists r,
    o = Responds r /\ (status_code r =? 200) = true /\ json_result r = inr j.
Proof.
  destruct o as [e|r]; unfold parsed; [discriminate|].
  destruct (status_code r =? 200) eqn:H200; [|discriminate].
  destruct (json_result r) as [e|j'] eqn:Hj; [discriminate|].
  intros [= ->]. exists r. repeat split; assumption.
Qed.

Lemma reported_status_some (o : Outcome) (s : json) :
  reported_status o = Some s ->
  exists r j,
    o = Responds r /\ (status_code r =? 200) = true /\
    json_result r = inr j /\ py_get j "status" = inr s.
Proof.
  unfold reported_status.
  destruct (parsed o) as [j|] eqn:E; [|discriminate].
  destruct (py_get j "status") as [e|s'] eqn:G; [discriminate|].
  intros [= ->]. apply parsed_some in E as (r & -> & H200 & Hj).
  exists r, j. repeat split; assumption.
Qed.

(** Bring a trace built one event at a time to the form [t ++ events]. *)
Ltac flatten_trace := rewrite <- ?app_assoc; cbn [app].

(** The first poll, once the submit was accepted. *)
Lemma first_poll (request : RAGRequest) (t : Trace) (s : json) :
  reported_status
    (upstream (t ++ [EvRequest (index_post request)])%list
       (index_get request)) = Some s ->
  poll 1 request 0 (t ++ [EvRequest (index_post request)])%list =
  let t2 :=
    (t ++ [EvRequest (index_post request); EvRequest (index_get request)])%list
  in
  if eq_str s "SUCCEEDED" then (inr 0, t2)
  else if eq_str s "FAILED" then
    (inl (HTTPException 400 "Failed to index document"), t2)
  else (inl await_error, (t2 ++ [EvSleep 5])%list).
Proof.
  intros H. apply reported_status_some in H as (r & j & Hr & H200 & Hj & Hs).
  rewrite poll_step by reflexivity. cbv zeta.
  rewrite Hr, H200, Hj, Hs. flatten_trace. reflexivity.
Qed.

(** A poll that reports neither SUCCEEDED nor FAILED is the last thing the
    workflow does upstream: the wait after it raises. *)
Lemma unfinished_poll_ends_workflow (request : RAGRequest) (t : Trace)
    (s : json) :
  accepted (upstream t (index_post request)) = true ->
  reported_status
    (upstream (t ++ [EvRequest (index_post request)])%list
       (index_get request)) = Some s ->
  eq_str s "SUCCEEDED" = false ->
  eq_str s "FAILED" = false ->
  process_rag request t =
  (inl (HTTPException 500 (str await_error)),
   (t ++ [EvRequest (index_post request); EvRequest (index_get request);
          EvSleep 5])%list).
Proof.
  intros H0 H1 Hs Hf.
  apply accepted_true in H0 as (r0 & Hr0 & H200).
  unfold process_rag, try_except.
  rewrite process_rag_body_steps. cbv zeta.
  rewrite Hr0, H200, (first_poll _ _ _ H1). cbv zeta.
  rewrite Hs, Hf. flatten_trace. reflexivity.
Qed.

(** The workflow from the fetch on, once the submit was accepted and the
    first poll reported SUCCEEDED. *)
Lemma process_rag_body_fetch (request : RAGRequest) (t : Trace)
    (config : json) :
  accepted (upstream t (index_post request)) = true ->
  reported_status
    (upstream (t ++ [EvRequest (index_post request)])%list
       (index_get request)) = Some (JStr "SUCCEEDED") ->
  parsed
    (upstream
       (t ++ [EvRequest (index_post request);
              EvRequest (index_get request)])%list
       (agent_get request)) = Some config ->
  process_rag_body request t =
  let t3 :=
    (t ++ [EvRequest (index_post request); EvRequest (index_get request);
           EvRequest (agent_get request)])%list in
  match enable_rag request config with
  | inl e => (inl e, t3)
  | inr c1 =>
      match update_usage_mode request c1 with
      | inl e => (inl e, t3)
      | inr c2 =>
          let t4 := (t3 ++ [EvRequest (agent_put request c2)])%list in
          if serialisable c2 then
            match upstream t3 (agent_put request c2) with
            | Raises e => (inl e, t4)
            | Responds r3 =>
                if status_code r3 =? 200 then (inr success, t4)
                else
                  (inl (HTTPException (status_code r3)
                          "Failed to update agent configuration"), t4)
            end
          else (inl invalid_json_error, t3)
      end
  end.
Proof.
  intros H0 H1 H2.
  apply accepted_true in H0 as (r0 & Hr0 & H200).
  apply parsed_some in H2 as (r2 & Hr2 & H200' & Hj).
  rewrite process_rag_body_steps. cbv zeta.
  rewrite Hr0, H200, (first_poll _ _ _ H1). cbv zeta. cbn [eq_str String.eqb].
  change (String.eqb "SUCCEEDED" "SUCCEEDED") with true. cbv iota.
  flatten_trace. rewrite Hr2, H200', Hj. reflexivity.
Qed.

(** A configuration as the data model describes it goes through the
    mutation. *)
Lemma update_docs_total (request : RAGRequest) (docs : list json) :
  forallb has_id docs = true ->
  exists docs', update_docs request docs = inr docs'.
Proof.
  induction docs as [|doc rest IH]; simpl; intros H; [eauto|].
  apply andb_prop in H as [Hid Hrest].
  destruct (IH Hrest) as [rest' ->].
  destruct doc as [| | | | | |e]; simpl in Hid; try discriminate.
  simpl. destruct (dict_get "id" e) as [id|]; [|discriminate].
  destruct (eq_str id (document_id request)); simpl; eauto.
Qed.

Lemma knowledge_base_some (config : json) (docs : list json) :
  knowledge_base config = Some docs ->
  exists d a p,
    config = JObj d /\ dict_get "agent" d = Some (JObj a) /\
    dict_get "prompt" a = Some (JObj p) /\
    dict_get "knowledge_base" p = Some (JArr docs).
Proof.
  unfold knowledge_base.
  destruct config as [| | | | | |d]; try discriminate.
  destruct (dict_get "agent" d) as [[| | | | | |a]|] eqn:Hd; try discriminate.
  destruct (dict_get "prompt" a) as [[| | | | | |p]|] eqn:Ha; try discriminate.
  destruct (dict_get "knowledge_base" p) as [[| | | | |l|]|] eqn:Hp;
    try discriminate.
  intros [= ->]. exists d, a, p. auto.
Qed.

Lemma mutation_total (request : RAGRequest) (config : json)
    (docs : list json) :
  knowledge_base config = Some docs ->
  forallb has_id docs = true ->
  exists c1 c2 docs',
    enable_rag request config = inr c1 /\
    update_usage_mode request c1 = inr c2 /\
    update_docs request docs = inr docs' /\
    knowledge_base c2 = Some docs'.
Proof.
  intros Hkb Hids.
  apply knowledge_base_some in Hkb as (d & a & p & -> & Hd & Ha & Hp).
  destruct (update_docs_total request docs Hids) as [docs' Hdocs].
  unfold enable_rag, update_usage_mode. cbn [getitem setitem].
  rewrite Hd. cbn [getitem setitem]. rewrite Ha. cbn [getitem setitem].
  do 2 eexists. exists docs'. split; [reflexivity|].
  cbn [getitem]. rewrite dict_get_set_same.
  cbn [getitem]. rewrite dict_get_set_same.
  cbn [getitem]. rewrite dict_get_set_other by discriminate. rewrite Hp.
  cbn [update_kb]. rewrite Hdocs. cbn [setitem].
  split; [reflexivity|]. split; [reflexivity|].
  unfold knowledge_base. now rewrite !dict_get_set_same.
Qed.

Lemma update_docs_no_match (request : RAGRequest) (docs : list json) :
  forallb has_id docs = true ->
  forallb (fun doc => negb (matches request doc)) docs = true ->
  update_docs request docs = inr docs.
Proof.
  induction docs as [|doc rest IH]; simpl; intros Hids Hno; [reflexivity|].
  apply andb_prop in Hids as [Hid Hids].
  apply andb_prop in Hno as [Hdoc Hno].
  rewrite (IH Hids Hno).
  destruct doc as [| | | | | |e]; simpl in Hid; try discriminate.
  simpl in *. destruct (dict_get "id" e) as [id|]; [|discriminate].
  apply negb_true_iff in Hdoc. now rewrite Hdoc.
Qed.

Lemma update_docs_all_matches (request : RAGRequest) (docs docs' : list json) :
  update_docs request docs = inr docs' ->
  List.length docs' = List.length docs /\
  forall i doc,
    nth_error docs i = Some doc -> matches request doc = true ->
    exists doc', nth_error docs' i = Some doc' /\ is_auto doc' = true.
Proof.
  revert docs'. induction docs as [|doc rest IH]; simpl; intros docs' H.
  - injection H as <-. split; [reflexivity|]. now intros [|i].
  - destruct (getitem doc "id") as [|id] eqn:E1; try discriminate.
    destruct (if eq_str id (document_id request)
              then setitem doc "usage_mode" (JStr "auto") else inr doc)
      as [|doc'] eqn:E2; try discriminate.
    destruct (update_docs request rest) as [|rest'] eqn:E3; try discriminate.
    injection H as <-.
    destruct (IH rest' eq_refl) as [Hlen Hall].
    split; [simpl; now rewrite Hlen|].
    intros [|i] doc0 Hnth Hm; simpl in *; [|eauto].
    injection Hnth as <-.
    apply getitem_inr in E1 as (e & -> & He).
    simpl in Hm. rewrite He in Hm. rewrite Hm in E2.
    simpl in E2. injection E2 as <-.
    eexists. split; [reflexivity|].
    simpl. now rewrite dict_get_set_same.
Qed.

Lemma snd_process_rag (request : RAGRequest) (t : Trace) :
  snd (process_rag request t) = snd (process_rag_body request t).
Proof.
  unfold process_rag, try_except.
  now destruct (process_rag_body request t) as [[e|v] t'].
Qed.

Lemma process_rag_body_returns (request : RAGRequest) (t t' : Trace)
    (v : json) :
  process_rag_body request t = (inr v, t') -> v = success.
Proof.
  rewrite process_rag_body_steps. cbv zeta.
  destruct (upstream t _) as [e|r0]; [discriminate|].
  destruct (status_code r0 =? 200); [|discriminate].
  destruct (poll 1 request 0 _) as [[e|rc] t1]; [discriminate|].
  destruct (upstream _ (agent_get request)) as [e|r2]; [discriminate|].
  destruct (status_code r2 =? 200); [|discriminate].
  destruct (json_result r2) as [e|config]; [discriminate|].
  destruct (enable_rag request config) as [e|c1]; [discriminate|].
  destruct (update_usage_mode request c1) as [e|c2]; [discriminate|].
  destruct (serialisable c2); [|discriminate].
  destruct (upstream _ (agent_put request c2)) as [e|r3]; [discriminate|].
  destruct (status_code r3 =? 200); [|discriminate].
  now intros [= <- _].
Qed.

(** The last event of a trace decides a claim on it. *)
Ltac last_event H :=
  apply app_inj_tail in H as [? H]; try discriminate H;
  try (injection H as <-; discriminate).

(** The write-back happens once, last, and after a fetch. *)
Lemma put_inversion (request : RAGRequest) (t t' : Trace) (c : Call) :
  snd (process_rag_body request t) = (t' ++ [EvRequest c])%list ->
  method c = PUT ->
  exists config c1 c2,
    t' = (t ++ [EvRequest (index_post request);
                EvRequest (index_get request);
                EvRequest (agent_get request)])%list /\
    parsed
      (upstream
         (t ++ [EvRequest (index_post request);
                EvRequest (index_get request)])%list
         (agent_get request)) = Some config /\
    enable_rag request config = inr c1 /\
    update_usage_mode request c1 = inr c2 /\
    c = agent_put request c2.
Proof.
  rewrite process_rag_body_steps. cbv zeta. intros H Hput.
  destruct (upstream t _) as [e|r0]; [simpl in H; last_event H|].
  destruct (status_code r0 =? 200); [|simpl in H; last_event H].
  rewrite poll_step in H by reflexivity. cbv zeta in H.
  destruct (upstream _ (index_get request)) as [e|r1];
    [simpl in H; last_event H|].
  destruct (status_code r1 =? 200); [|simpl in H; last_event H].
  destruct (json_result r1) as [e|j]; [simpl in H; last_event H|].
  destruct (py_get j "status") as [e|status]; [simpl in H; last_event H|].
  destruct (eq_str status "SUCCEEDED");
    [|destruct (eq_str status "FAILED"); simpl in H; last_event H].
  destruct (upstream _ (agent_get request)) as [e|r2] eqn:Hr2;
    [simpl in H; last_event H|].
  destruct (status_code r2 =? 200) eqn:H200; [|simpl in H; last_event H].
  destruct (json_result r2) as [e|config] eqn:Hj; [simpl in H; last_event H|].
  destruct (enable_rag request config) as [e|c1] eqn:H1;
    [simpl in H; last_event H|].
  destruct (update_usage_mode request c1) as [e|c2] eqn:H2;
    [simpl in H; last_event H|].
  destruct (serialisable c2); [|simpl in H; last_event H].
  assert (t' = (((t ++ [EvRequest (index_post request)]) ++
                   [EvRequest (index_get request)]) ++
                  [EvRequest (agent_get request)])%list /\
          EvRequest (agent_put request c2) = EvRequest c) as [Ht' Hc].
  { destruct (upstream _ (agent_put request c2)) as [e|r3];
      [|destruct (status_code r3 =? 200)];
      simpl in H; apply app_inj_tail in H as [<- <-]; auto. }
  injection Hc as <-.
  exists config, c1, c2. subst t'. flatten_trace.
  repeat split; auto.
  unfold parsed. revert Hr2. flatten_trace. intros ->.
  now rewrite H200, Hj.
Qed.

(** Faults of the calls themselves, at the first and at the last step, and
    a fault of decoding, at the poll. *)
Lemma transport_fault_at_submit (request : RAGRequest) (t : Trace)
    (e : Exception) :
  upstream t (index_post request) = Raises e ->
  process_rag request t =
  (inl (HTTPException 500 (str e)),
   (t ++ [EvRequest (index_post request)])%list).
Proof.
  intros He. unfold process_rag, try_except.
  rewrite process_rag_body_steps. cbv zeta. now rewrite He.
Qed.

Lemma decoding_fault_at_poll (request : RAGRequest) (t : Trace)
    (r : Response) (e : Exception) :
  accepted (upstream t (index_post request)) = true ->
  upstream (t ++ [EvRequest (index_post request)])%list (index_get request)
  = Responds r ->
  status_code r = 200 ->
  json_result r = inl e ->
  process_rag request t =
  (inl (HTTPException 500 (str e)),
   (t ++ [EvRequest (index_post request);
          EvRequest (index_get request)])%list).
Proof.
  intros H0 Hr H200 He. apply Z.eqb_eq in H200.
  apply accepted_true in H0 as (r0 & Hr0 & H200').
  unfold process_rag, try_except.
  rewrite process_rag_body_steps. cbv zeta.
  rewrite Hr0, H200', poll_step by reflexivity. cbv zeta.
  rewrite Hr, H200, He. flatten_trace. reflexivity.
Qed.

Lemma transport_fault_at_write_back (request : RAGRequest) (t : Trace)
    (config c1 c2 : json) (e : Exception) :
  accepted (upstream t (index_post request)) = true ->
  reported_status
    (upstream (t ++ [EvRequest (index_post request)])%list
       (index_get request)) = Some (JStr "SUCCEEDED") ->
  parsed
    (upstream
       (t ++ [EvRequest (index_post request);
              EvRequest (index_get request)])%list
       (agent_get request)) = Some config ->
  enable_rag request config = inr c1 ->
  update_usage_mode request c1 = inr c2 ->
  serialisable c2 = true ->
  upstream
    (t ++ [EvRequest (index_post request); EvRequest (index_get request);
           EvRequest (agent_get request)])%list
    (agent_put request c2) = Raises e ->
  process_rag request t =
  (inl (HTTPException 500 (str e)),
   (t ++ [EvRequest (index_post request); EvRequest (index_get request);
          EvRequest (agent_get request);
          EvRequest (agent_put request c2)])%list).
Proof.
  intros H0 H1 H2 Hc1 Hc2 Hser He. unfold process_rag, try_except.
  rewrite (process_rag_body_fetch _ _ _ H0 H1 H2). cbv zeta.
  rewrite Hc1, Hc2, Hser, He. flatten_trace. reflexivity.
Qed.

Lemma eq_str_true (v : json) (s : string) :
  eq_str v s = true -> v = JStr s.
Proof.
  destruct v; simpl; try discriminate.
  intros H. apply String.eqb_eq in H. now subst.
Qed.

(** ** Documents that can be sent *)

Lemma serialisable_dict_get (k : string) (v : json) (d : dict) :
  serialisable (JObj d) = true -> dict_get k d = Some v ->
  serialisable v = true.
Proof.
  cbn [serialisable]. induction d as [|[k' v'] d IH]; simpl; [discriminate|].
  intros H. apply andb_prop in H as [Hv Hd].
  destruct (String.eqb k k'); [now intros [= <-]|auto].
Qed.

Lemma serialisable_dict_set (k : string) (v : json) (d : dict) :
  serialisable (JObj d) = true -> serialisable v = true ->
  serialisable (JObj (dict_set k v d)) = true.
Proof.
  cbn [serialisable]. intros Hd Hv.
  induction d as [|[k' v'] d IH]; simpl.
  - now rewrite Hv.
  - simpl in Hd. apply andb_prop in Hd as [Hv' Hd].
    destruct (String.eqb k k'); simpl.
    + now rewrite Hv, Hd.
    + now rewrite Hv', IH.
Qed.

Lemma update_docs_serialisable (request : RAGRequest)
    (docs docs' : list json) :
  update_docs request docs = inr docs' ->
  forallb serialisable docs = true -> forallb serialisable docs' = true.
Proof.
  revert docs'. induction docs as [|doc rest IH]; simpl; intros docs' H Hs.
  - now injection H as <-.
  - destruct (getitem doc "id") as [|id] eqn:E1; try discriminate.
    destruct (if eq_str id (document_id request)
              then setitem doc "usage_mode" (JStr "auto") else inr doc)
      as [|doc'] eqn:E2; try discriminate.
    destruct (update_docs request rest) as [|rest'] eqn:E3; try discriminate.
    injection H as <-. apply andb_prop in Hs as [Hdoc Hrest].
    cbn [forallb]. rewrite (IH rest' eq_refl Hrest), andb_true_r.
    destruct (eq_str id (document_id request)).
    + apply setitem_inr in E2 as (e & -> & ->).
      now apply serialisable_dict_set.
    + now injection E2 as <-.
Qed.

Lemma update_kb_serialisable (request : RAGRequest) (kb kb' : json) :
  update_kb request kb = inr kb' ->
  serialisable kb = true -> serialisable kb' = true.
Proof.
  unfold update_kb. intros H Hs.
  destruct kb as [| | | |s|docs|d]; try discriminate.
  - destruct s; [|discriminate]. now injection H as <-.
  - destruct (update_docs request docs) as [|docs'] eqn:E; try discriminate.
    injection H as <-. cbn [serialisable] in *.
    now apply (update_docs_serialisable _ _ _ E).
  - destruct d as [|[k v] d]; [|discriminate]. now injection H as <-.
Qed.

Lemma conversation_body_serialisable (msgs : list Message) :
  serialisable (JObj [("messages", JArr (map Message_dict msgs))]) = true.
Proof.
  cbn [serialisable forallb]. rewrite andb_true_r.
  induction msgs as [|m msgs IH]; [reflexivity|].
  cbn [map forallb]. now rewrite IH.
Qed.

(** The mutation adds a boolean, two strings and an integer: a document
    that can be sent still can after it. *)
Lemma mutate_serialisable (request : RAGRequest) (config config' : json) :
  mutate request config = inr config' ->
  serialisable config = true -> serialisable config' = true.
Proof.
  unfold mutate.
  destruct (enable_rag request config) as [e|c1] eqn:H1; [discriminate|].
  intros H2 Hs.
  apply enable_rag_inr in H1 as (d & a & p & -> & Hd & Ha & ->).
  apply update_usage_mode_inr in H2
    as (d1 & a1 & p1 & kb & kb' & [= <-] & Hd1 & Ha1 & Hp1 & Hkb & ->).
  rewrite dict_get_set_same in Hd1. injection Hd1 as <-.
  rewrite dict_get_set_same in Ha1. injection Ha1 as <-.
  pose proof (serialisable_dict_get _ _ _ Hs Hd) as Hsa.
  pose proof (serialisable_dict_get _ _ _ Hsa Ha) as Hsp.
  assert (serialisable (JObj (dict_set "rag" (rag_config request) p)) = true)
    as Hsp1 by (now apply serialisable_dict_set).
  pose proof (serialisable_dict_get _ _ _ Hsp1 Hp1) as Hskb.
  pose proof (update_kb_serialisable _ _ _ Hkb Hskb) as Hskb'.
  repeat apply serialisable_dict_set; auto.
Qed.

Lemma mutation_total_mutate (request : RAGRequest) (config : json)
    (docs : list json) :
  knowledge_base config = Some docs ->
  forallb has_id docs = true ->
  exists config' docs',
    mutate request config = inr config' /\
    update_docs request docs = inr docs' /\
    knowledge_base config' = Some docs'.
Proof.
  intros Hkb Hids.
  destruct (mutation_total request config docs Hkb Hids)
    as (c1 & c2 & docs' & Hc1 & Hc2 & Hdocs & Hkb').
  exists c2, docs'. unfold mutate. rewrite Hc1. auto.
Qed.

(** The workflow from the write-back on, once a document was fetched. *)
Lemma process_rag_body_write_back (request : RAGRequest) (t : Trace)
    (config : json) :
  fetched request t config ->
  process_rag_body request t =
  let t3 :=
    (t ++ [EvRequest (index_post request); EvRequest (index_get request);
           EvRequest (agent_get request)])%list in
  match mutate request config with
  | inl e => (inl e, t3)
  | inr config' =>
      let t4 := (t3 ++ [EvRequest (agent_put request config')])%list in
      if serialisable config' then
        match upstream t3 (agent_put request config') with
        | Raises e => (inl e, t4)
        | Responds r3 =>
            if status_code r3 =? 200 then (inr success, t4)
            else
              (inl (HTTPException (status_code r3)
                      "Failed to update agent configuration"), t4)
        end
      else (inl invalid_json_error, t3)
  end.
Proof.
  intros [[H0 H1] H2]. unfold submitted in H0.
  rewrite (process_rag_body_fetch _ _ _ H0 H1 H2). cbv zeta.
  unfold mutate. now destruct (enable_rag request config).
Qed.

(** The workflow from the fetch on, once the poll reported SUCCEEDED. *)
Lemma process_rag_body_indexed (request : RAGRequest) (t : Trace) :
  indexed request t ->
  process_rag_body request t =
  let t2 :=
    (t ++ [EvRequest (index_post request);
           EvRequest (index_get request)])%list in
  let t3 :=
    (t ++ [EvRequest (index_post request); EvRequest (index_get request);
           EvRequest (agent_get request)])%list in
  match upstream t2 (agent_get request) with
  | Raises e => (inl e, t3)
  | Responds r2 =>
      if status_code r2 =? 200 then
        match json_result r2 with
        | inl e => (inl e, t3)
        | inr config =>
            match mutate request config with
            | inl e => (inl e, t3)
            | inr config' =>
                let t4 :=
                  (t3 ++ [EvRequest (agent_put request config')])%list in
                if serialisable config' then
                  match upstream t3 (agent_put request config') with
                  | Raises e => (inl e, t4)
                  | Responds r3 =>
                      if status_code r3 =? 200 then (inr success, t4)
                      else
                        (inl (HTTPException (status_code r3)
                                "Failed to update agent configuration"), t4)
                  end
                else (inl invalid_json_error, t3)
            end
        end
      else
        (inl (HTTPException (status_code r2)
                "Failed to get agent configuration"), t3)
  end.
Proof.
  intros [H0 H1]. unfold submitted in H0.
  apply accepted_true in H0 as (r0 & Hr0 & H200).
  rewrite process_rag_body_steps. cbv zeta.
  rewrite Hr0, H200, (first_poll _ _ _ H1). cbv zeta. cbn [eq_str].
  change (String.eqb "SUCCEEDED" "SUCCEEDED") with true. cbv iota.
  flatten_trace.
  destruct (upstream _ (agent_get request)) as [e|r2]; [reflexivity|].
  destruct (status_code r2 =? 200); [|reflexivity].
  destruct (json_result r2) as [e|config]; [reflexivity|].
  unfold mutate. now destruct (enable_rag request config).
Qed.

(** What the handler of [process_rag] does with the outcome of the try
    block. *)
Lemma process_rag_catch_all (request : RAGRequest) (t : Trace) :
  match process_rag_body request t with
  | (inl e, t') =>
      process_rag request t = (inl (HTTPException 500 (str e)), t')
  | (inr v, t') => process_rag request t = (inr v, t') /\ v = success
  end.
Proof.
  unfold process_rag, try_except.
  destruct (process_rag_body request t) as [[e|v] t'] eqn:Hbody.
  - reflexivity.
  - split; [reflexivity|]. eapply process_rag_body_returns; eauto.
Qed.

(** The step faults are all there is: the try block fails on one of them
    or on a failure it raises itself. *)
Lemma try_block_failures (request : RAGRequest) (t t' : Trace)
    (e : Exception) :
  process_rag_body request t = (inl e, t') ->
  step_fault request t e t' \/ own_failure e.
Proof.
  rewrite process_rag_body_steps. cbv zeta.
  rewrite poll_step by reflexivity. cbv zeta. flatten_trace.
  destruct (upstream t (index_post request)) as [e0|r0] eqn:Hr0.
  { intros [= <- <-]. left. now apply submit_transport. }
  destruct (status_code r0 =? 200) eqn:Hs0.
  2:{ intros [= <- <-]. right. unfold own_failure. eauto. }
  assert (submitted request t) as Hsub.
  { unfold submitted, accepted. now rewrite Hr0. }
  destruct (upstream _ (index_get request)) as [e1|r1] eqn:Hr1.
  { intros [= <- <-]. left. now apply poll_transport. }
  destruct (status_code r1 =? 200) eqn:Hs1.
  2:{ intros [= <- <-]. right. unfold own_failure. eauto. }
  destruct (json_result r1) as [e1|j] eqn:Hj.
  { intros [= <- <-]. left. apply poll_decoding with (r := r1); auto.
    now apply Z.eqb_eq. }
  assert (parsed
            (upstream (t ++ [EvRequest (index_post request)])%list
               (index_get request)) = Some j) as Hparsed.
  { unfold parsed. now rewrite Hr1, Hs1, Hj. }
  destruct (py_get j "status") as [e1|status] eqn:Hst.
  { intros [= <- <-]. left. now apply poll_no_dict with (j := j). }
  assert (reported_status
            (upstream (t ++ [EvRequest (index_post request)])%list
               (index_get request)) = Some status) as Hrep.
  { unfold reported_status. now rewrite Hparsed, Hst. }
  destruct (eq_str status "SUCCEEDED") eqn:Hok.
  2:{ destruct (eq_str status "FAILED") eqn:Hfail.
      - intros [= <- <-]. right. unfold own_failure. eauto.
      - intros [= <- <-]. left. apply wait_fault with (s := status); auto.
        + intros ->. simpl in Hok. discriminate.
        + intros ->. simpl in Hfail. discriminate. }
  apply eq_str_true in Hok. subst status.
  assert (indexed request t) as Hind by (split; assumption).
  destruct (upstream _ (agent_get request)) as [e2|r2] eqn:Hr2.
  { intros [= <- <-]. left. now apply fetch_transport. }
  destruct (status_code r2 =? 200) eqn:Hs2.
  2:{ intros [= <- <-]. right. unfold own_failure. eauto. }
  destruct (json_result r2) as [e2|config] eqn:Hcfg.
  { intros [= <- <-]. left. apply fetch_decoding with (r := r2); auto.
    now apply Z.eqb_eq. }
  assert (fetched request t config) as Hfetched.
  { split; [assumption|]. unfold parsed. now rewrite Hr2, Hs2, Hcfg. }
  destruct (enable_rag request config) as [e3|c1] eqn:Hc1.
  { intros [= <- <-]. left. apply mutation_fault with (config := config);
      auto. unfold mutate. now rewrite Hc1. }
  destruct (update_usage_mode request c1) as [e3|c2] eqn:Hc2.
  { intros [= <- <-]. left. apply mutation_fault with (config := config);
      auto. unfold mutate. now rewrite Hc1. }
  assert (mutate request config = inr c2) as Hm.
  { unfold mutate. now rewrite Hc1. }
  destruct (serialisable c2) eqn:Hser.
  2:{ intros [= <- <-]. left.
      now apply serialisation_fault with (config := config) (config' := c2). }
  destruct (upstream _ (agent_put request c2)) as [e4|r3] eqn:Hr3.
  { intros [= <- <-]. left. flatten_trace.
    now apply write_back_transport with (config := config). }
  destruct (status_code r3 =? 200); [discriminate|].
  intros [= <- <-]. right. unfold own_failure. eauto.
Qed.

(** ** The properties of the workflow *)

(** C1, on the code.  When the submit-indexing call is answered with a
    status other than 200, [process_rag] makes no further upstream call,
    but the failure it raises does not carry that status: the
    [HTTPException] raised with the upstream status and the message
    "Failed to index document" is taken by the function's own
    [except Exception] and raised again with code 500, its detail being
    [str()] of the first one. *)
Theorem rejected_submit_leaves_with_500 (request : RAGRequest) (t : Trace)
    (r : Response) :
  upstream t (index_post request) = Responds r ->
  status_code r <> 200 ->
  process_rag request t =
  (inl (HTTPException 500
          (str (HTTPException (status_code r) "Failed to index document"))),
   (t ++ [EvRequest (index_post request)])%list).
Proof.
  intros Hr Hne. apply Z.eqb_neq in Hne.
  unfold process_rag, try_except.
  rewrite process_rag_body_steps. cbv zeta.
  now rewrite Hr, Hne.
Qed.

(** C2.  Whenever [process_rag] issues the PUT, that call is the last of
    the run and comes right after the fetch of the agent configuration,
    which was answered with a parsed document; the body of the PUT is that
    document except for the RAG sub-object, set to the enabled one with
    the request's embedding model and length, and for the [usage_mode] of
    the knowledge-base entries whose [id] is the request's document, set
    to "auto".  Every other key of the document, of its [agent], of the
    [prompt] and of each entry keeps its place and its value. *)
Theorem put_writes_back_the_fetched_configuration (request : RAGRequest)
    (t t' : Trace) (c : Call) :
  snd (process_rag request t) = (t' ++ [EvRequest c])%list ->
  method c = PUT ->
  exists config config',
    t' = (t ++ [EvRequest (index_post request);
                EvRequest (index_get request);
                EvRequest (agent_get request)])%list /\
    parsed
      (upstream
         (t ++ [EvRequest (index_post request);
                EvRequest (index_get request)])%list
         (agent_get request)) = Some config /\
    c = agent_put request config' /\
    written_back request config config'.
Proof.
  rewrite snd_process_rag. intros H Hput.
  destruct (put_inversion _ _ _ _ H Hput)
    as (config & c1 & c2 & Ht' & Hparsed & H1 & H2 & Hc).
  exists config, c2. repeat split; auto.
  now apply mutation_written_back with (c1 := c1).
Qed.

(** C3, on the code.  With the submit accepted and the status polls
    reporting PENDING three times and then SUCCEEDED, [process_rag] makes
    one status call, not four, and never fetches the agent configuration:
    after the first PENDING it sleeps, [await] is applied to the [None]
    that [time.sleep] gives, and the [TypeError] leaves the function as a
    failure with code 500. *)
Theorem pending_then_succeeded_stops_at_first_poll (request : RAGRequest)
    (t : Trace) :
  accepted (upstream t (index_post request)) = true ->
  (forall t',
      reported_status (upstream (t ++ t')%list (index_get request)) =
      Some (JStr (if (status_calls request t' <? 3)%nat
                  then "PENDING" else "SUCCEEDED"))) ->
  let events :=
    [EvRequest (index_post request); EvRequest (index_get request);
     EvSleep 5] in
  process_rag request t =
  (inl (HTTPException 500 (str await_error)), (t ++ events)%list) /\
  status_calls request events = 1%nat.
Proof.
  intros H0 Hpolls events. split.
  - apply unfinished_poll_ends_workflow with (s := JStr "PENDING");
      [assumption| |reflexivity|reflexivity].
    exact (Hpolls [EvRequest (index_post request)]).
  - unfold events, status_calls, is_status_call, call_eqb_index_get.
    cbn [filter index_post index_get method body url xi_api_key].
    now rewrite !String.eqb_refl.
Qed.

(** C4, on the code.  When the first status poll reports FAILED,
    [process_rag] stops there, after one poll, but the failure it raises
    has code 500, not 400: the [HTTPException] with code 400 and the
    message "Failed to index document" is taken by the function's own
    [except Exception] and raised again. *)
Theorem failed_poll_leaves_with_500 (request : RAGRequest) (t : Trace) :
  accepted (upstream t (index_post request)) = true ->
  reported_status
    (upstream (t ++ [EvRequest (index_post request)])%list
       (index_get request)) = Some (JStr "FAILED") ->
  process_rag request t =
  (inl (HTTPException 500
          (str (HTTPException 400 "Failed to index document"))),
   (t ++ [EvRequest (index_post request);
          EvRequest (index_get request)])%list).
Proof.
  intros H0 H1.
  apply accepted_true in H0 as (r0 & Hr0 & H200).
  unfold process_rag, try_except.
  rewrite process_rag_body_steps. cbv zeta.
  rewrite Hr0, H200, (first_poll _ _ _ H1). reflexivity.
Qed.

(** C5, on the code.  With the submit accepted and every status poll
    reporting PENDING, [process_rag] makes one status call and leaves with
    a failure of code 500 whose detail is that of the [TypeError] of
    [await time.sleep(5)]; the code 408 and the message
    "Timeout waiting for document indexing" are never reached. *)
Theorem always_pending_stops_at_first_poll (request : RAGRequest)
    (t : Trace) :
  accepted (upstream t (index_post request)) = true ->
  (forall t',
      reported_status (upstream (t ++ t')%list (index_get request)) =
      Some (JStr "PENDING")) ->
  let events :=
    [EvRequest (index_post request); EvRequest (index_get request);
     EvSleep 5] in
  process_rag request t =
  (inl (HTTPException 500 (str await_error)), (t ++ events)%list) /\
  status_calls request events = 1%nat /\
  str await_error <> "Timeout waiting for document indexing".
Proof.
  intros H0 Hpolls events. split; [|split].
  - apply unfinished_poll_ends_workflow with (s := JStr "PENDING"); auto.
  - unfold events, status_calls, is_status_call, call_eqb_index_get.
    cbn [filter index_post index_get method body url xi_api_key].
    now rewrite !String.eqb_refl.
  - discriminate.
Qed.

(** C6.  When the submit is accepted, the first status poll reports
    SUCCEEDED, the fetch gives a configuration as the data model describes
    it, that can be sent (its floats are finite), and the write-back of
    the configuration the workflow made of it is accepted, [process_rag]
    makes these four calls and returns the dict with [status] "success"
    and the completion message, and nothing else in it. *)
Theorem activation_succeeds (request : RAGRequest) (t : Trace)
    (config : json) :
  accepted (upstream t (index_post request)) = true ->
  reported_status
    (upstream (t ++ [EvRequest (index_post request)])%list
       (index_get request)) = Some (JStr "SUCCEEDED") ->
  parsed
    (upstream
       (t ++ [EvRequest (index_post request);
              EvRequest (index_get request)])%list
       (agent_get request)) = Some config ->
  well_formed_config config = true ->
  serialisable config = true ->
  (forall config',
      mutate request config = inr config' ->
      accepted
        (upstream
           (t ++ [EvRequest (index_post request);
                  EvRequest (index_get request);
                  EvRequest (agent_get request)])%list
           (agent_put request config')) = true) ->
  exists config',
    mutate request config = inr config' /\
    process_rag request t =
    (inr (JObj [("status", JStr "success");
                ("message",
                  JStr "RAG configuration completed successfully")]),
     (t ++ [EvRequest (index_post request);
            EvRequest (index_get request);
            EvRequest (agent_get request);
            EvRequest (agent_put request config')])%list).
Proof.
  intros H0 H1 H2 Hwf Hser Hput.
  unfold well_formed_config in Hwf.
  destruct (knowledge_base config) as [docs|] eqn:Hkb; [|discriminate].
  destruct (mutation_total_mutate request config docs Hkb Hwf)
    as (c2 & docs' & Hc2 & _ & _).
  exists c2. split; [assumption|].
  unfold process_rag, try_except.
  rewrite (process_rag_body_write_back request t config)
    by (repeat split; assumption).
  cbv zeta. rewrite Hc2, (mutate_serialisable _ _ _ Hc2 Hser).
  destruct (accepted_true _ (Hput c2 Hc2)) as (r3 & -> & ->).
  flatten_trace. reflexivity.
Qed.

(** C7.  A fault of any step of the workflow (a call failing in
    transport, an answer that does not decode or is no dict, the wait
    after an unfinished poll, a fetched document lacking what the
    mutation reads, a mutated document that cannot be serialised) leaves
    [process_rag] as an [HTTPException] with code 500 whose detail is
    [str()] of the fault, the trace being what it was at the fault; and
    whatever run fails, what comes out is an [HTTPException] with code
    500 and [str()] of one of these faults or of a failure the try block
    raised itself: nothing else leaves the function. *)
Theorem faults_leave_as_http_500 (request : RAGRequest) (t t' : Trace)
    (e : Exception) :
  step_fault request t e t' ->
  process_rag request t = (inl (HTTPException 500 (str e)), t') /\
  forall t0 t1 x,
    process_rag request t0 = (inl x, t1) ->
    exists e0,
      x = HTTPException 500 (str e0) /\
      (step_fault request t0 e0 t1 \/ own_failure e0).
Proof.
  intros Hfault. split.
  - unfold process_rag, try_except.
    destruct Hfault as
      [e He
      |e H0 He
      |r e H0 Hr H200 He
      |j e H0 Hj He
      |s H0 Hs Hne1 Hne2
      |e Hi He
      |r e Hi Hr H200 He
      |config e Hf He
      |config config' Hf Hm Hser
      |config config' e Hf Hm Hser He].
    + rewrite process_rag_body_steps. cbv zeta. now rewrite He.
    + apply accepted_true in H0 as (r0 & Hr0 & Hs0).
      rewrite process_rag_body_steps. cbv zeta.
      rewrite Hr0, Hs0, poll_step by reflexivity. cbv zeta.
      rewrite He. flatten_trace. reflexivity.
    + apply accepted_true in H0 as (r0 & Hr0 & Hs0).
      apply Z.eqb_eq in H200.
      rewrite process_rag_body_steps. cbv zeta.
      rewrite Hr0, Hs0, poll_step by reflexivity. cbv zeta.
      rewrite Hr, H200, He. flatten_trace. reflexivity.
    + apply accepted_true in H0 as (r0 & Hr0 & Hs0).
      apply parsed_some in Hj as (r1 & Hr1 & Hs1 & Hj).
      rewrite process_rag_body_steps. cbv zeta.
      rewrite Hr0, Hs0, poll_step by reflexivity. cbv zeta.
      rewrite Hr1, Hs1, Hj, He. flatten_trace. reflexivity.
    + apply accepted_true in H0 as (r0 & Hr0 & Hs0).
      rewrite process_rag_body_steps. cbv zeta.
      rewrite Hr0, Hs0, (first_poll _ _ _ Hs). cbv zeta.
      destruct (eq_str s "SUCCEEDED") eqn:E1;
        [now apply eq_str_true in E1|].
      destruct (eq_str s "FAILED") eqn:E2;
        [now apply eq_str_true in E2|].
      flatten_trace. reflexivity.
    + rewrite (process_rag_body_indexed _ _ Hi). cbv zeta. now rewrite He.
    + apply Z.eqb_eq in H200.
      rewrite (process_rag_body_indexed _ _ Hi). cbv zeta.
      now rewrite Hr, H200, He.
    + rewrite (process_rag_body_write_back _ _ _ Hf). cbv zeta.
      now rewrite He.
    + rewrite (process_rag_body_write_back _ _ _ Hf). cbv zeta.
      now rewrite Hm, Hser.
    + rewrite (process_rag_body_write_back _ _ _ Hf). cbv zeta.
      rewrite Hm, Hser, He. flatten_trace. reflexivity.
  - intros t0 t1 x. unfold process_rag, try_except.
    destruct (process_rag_body request t0) as [[e0|v] t2] eqn:Hbody;
      [|discriminate].
    intros [= <- <-]. exists e0. split; [reflexivity|].
    now apply try_block_failures.
Qed.

(** C8.  When the fetched knowledge base is a list of entries none of
    which has the document's [id], in a configuration that can be sent,
    the workflow still goes on to the write-back, the knowledge-base list
    it writes is the fetched one, and with the write-back accepted
    [process_rag] returns success. *)
Theorem missing_match_is_no_error (request : RAGRequest) (t : Trace)
    (config : json) (docs : list json) :
  accepted (upstream t (index_post request)) = true ->
  reported_status
    (upstream (t ++ [EvRequest (index_post request)])%list
       (index_get request)) = Some (JStr "SUCCEEDED") ->
  parsed
    (upstream
       (t ++ [EvRequest (index_post request);
              EvRequest (index_get request)])%list
       (agent_get request)) = Some config ->
  knowledge_base config = Some docs ->
  forallb has_id docs = true ->
  forallb (fun doc => negb (matches request doc)) docs = true ->
  serialisable config = true ->
  (forall config',
      mutate request config = inr config' ->
      accepted
        (upstream
           (t ++ [EvRequest (index_post request);
                  EvRequest (index_get request);
                  EvRequest (agent_get request)])%list
           (agent_put request config')) = true) ->
  exists config',
    mutate request config = inr config' /\
    process_rag request t =
    (inr success,
     (t ++ [EvRequest (index_post request);
            EvRequest (index_get request);
            EvRequest (agent_get request);
            EvRequest (agent_put request config')])%list) /\
    knowledge_base config' = Some docs.
Proof.
  intros H0 H1 H2 Hkb Hids Hno Hser Hput.
  destruct (mutation_total_mutate request config docs Hkb Hids)
    as (c2 & docs' & Hc2 & Hdocs & Hkb').
  rewrite (update_docs_no_match _ _ Hids Hno) in Hdocs.
  injection Hdocs as <-.
  exists c2. split; [assumption|]. split; [|assumption].
  unfold process_rag, try_except.
  rewrite (process_rag_body_write_back request t config)
    by (repeat split; assumption).
  cbv zeta. rewrite Hc2, (mutate_serialisable _ _ _ Hc2 Hser).
  destruct (accepted_true _ (Hput c2 Hc2)) as (r3 & -> & ->).
  flatten_trace. reflexivity.
Qed.

(** C9.  When the fetched knowledge base is a list of entries, the
    configuration [process_rag] makes of the fetched one has a knowledge
    base of the same length in which every entry at the place of one
    whose [id] is the document's has [usage_mode] "auto": all of them,
    however many there are.  That configuration is the body of the PUT
    that ends the run, when it can be serialised; when it cannot, the run
    ends at the fetch. *)
Theorem every_matching_entry_is_set (request : RAGRequest) (t : Trace)
    (config : json) (docs : list json) :
  accepted (upstream t (index_post request)) = true ->
  reported_status
    (upstream (t ++ [EvRequest (index_post request)])%list
       (index_get request)) = Some (JStr "SUCCEEDED") ->
  parsed
    (upstream
       (t ++ [EvRequest (index_post request);
              EvRequest (index_get request)])%list
       (agent_get request)) = Some config ->
  knowledge_base config = Some docs ->
  forallb has_id docs = true ->
  exists config' docs',
    mutate request config = inr config' /\
    snd (process_rag request t) =
    (t ++ [EvRequest (index_post request);
           EvRequest (index_get request);
           EvRequest (agent_get request)] ++
       (if serialisable config'
        then [EvRequest (agent_put request config')] else []))%list /\
    knowledge_base config' = Some docs' /\
    List.length docs' = List.length docs /\
    forall i doc,
      nth_error docs i = Some doc -> matches request doc = true ->
      exists doc', nth_error docs' i = Some doc' /\ is_auto doc' = true.
Proof.
  intros H0 H1 H2 Hkb Hids.
  destruct (mutation_total_mutate request config docs Hkb Hids)
    as (c2 & docs' & Hc2 & Hdocs & Hkb').
  destruct (update_docs_all_matches _ _ _ Hdocs) as [Hlen Hall].
  exists c2, docs'. repeat split; auto.
  rewrite snd_process_rag.
  rewrite (process_rag_body_write_back request t config)
    by (repeat split; assumption).
  cbv zeta. rewrite Hc2.
  destruct (serialisable c2); [|reflexivity].
  flatten_trace.
  destruct (upstream _ (agent_put request c2)) as [e|r3]; [reflexivity|].
  destruct (status_code r3 =? 200); reflexivity.
Qed.

(** C10.  A [/talk] request with no message fails with code 500 although
    the relay call was answered with 200: once the answer is decoded,
    [request.messages[-1]] raises the [IndexError] whose description
    becomes the detail (and a fault of the decoding itself fails the
    request the same way). *)
Theorem empty_conversation_fails_with_500 (request : ConversationRequest)
    (t : Trace) (r : Response) :
  messages request = [] ->
  upstream t (conversation_post request) = Responds r ->
  status_code r = 200 ->
  handle_conversation request t =
  (inl (HTTPException 500
          match json_result r with
          | inl e => str e
          | inr _ => "list index out of range"
          end),
   (t ++ [EvRequest (conversation_post request)])%list).
Proof.
  intros Hm Hr H200. apply Z.eqb_eq in H200.
  unfold handle_conversation, try_except, handle_conversation_body.
  unfold bind at 1. unfold requests_post.
  rewrite conversation_body_serialisable. unfold send.
  fold (conversation_post request). rewrite Hr, H200. cbn [negb].
  unfold bind, lift. rewrite Hm.
  destruct (json_result r) as [e|data]; reflexivity.
Qed.

(** ** Further properties of [process_rag] *)

Lemma agent_url_not_index_url (request : RAGRequest) :
  String.eqb (agent_url request) (index_url request) = false.
Proof. reflexivity. Qed.

(** The five shapes a run of the workflow can have. *)
Lemma process_rag_events (request : RAGRequest) (t : Trace) :
  exists events,
    snd (process_rag request t) = (t ++ events)%list /\
    (events = [EvRequest (index_post request)] \/
     events = [EvRequest (index_post request);
               EvRequest (index_get request)] \/
     events = [EvRequest (index_post request);
               EvRequest (index_get request); EvSleep 5] \/
     events = [EvRequest (index_post request);
               EvRequest (index_get request);
               EvRequest (agent_get request)] \/
     exists config',
       events = [EvRequest (index_post request);
                 EvRequest (index_get request);
                 EvRequest (agent_get request);
                 EvRequest (agent_put request config')]).
Proof.
  rewrite snd_process_rag, process_rag_body_steps. cbv zeta.
  destruct (upstream t _) as [e|r0];
    [eexists; split; [reflexivity|auto]|].
  destruct (status_code r0 =? 200);
    [|eexists; split; [reflexivity|auto]].
  rewrite poll_step by reflexivity. cbv zeta.
  destruct (upstream _ (index_get request)) as [e|r1];
    [eexists; split; [simpl; flatten_trace; reflexivity|auto]|].
  destruct (status_code r1 =? 200);
    [|eexists; split; [simpl; flatten_trace; reflexivity|auto]].
  destruct (json_result r1) as [e|j];
    [eexists; split; [simpl; flatten_trace; reflexivity|auto]|].
  destruct (py_get j "status") as [e|status];
    [eexists; split; [simpl; flatten_trace; reflexivity|auto]|].
  destruct (eq_str status "SUCCEEDED");
    [|destruct (eq_str status "FAILED");
      eexists; (split; [simpl; flatten_trace; reflexivity|auto])].
  destruct (upstream _ (agent_get request)) as [e|r2];
    [eexists; split; [simpl; flatten_trace; reflexivity|auto 6]|].
  destruct (status_code r2 =? 200);
    [|eexists; split; [simpl; flatten_trace; reflexivity|auto 6]].
  destruct (json_result r2) as [e|config];
    [eexists; split; [simpl; flatten_trace; reflexivity|auto 6]|].
  destruct (enable_rag request config) as [e|c1];
    [eexists; split; [simpl; flatten_trace; reflexivity|auto 6]|].
  destruct (update_usage_mode request c1) as [e|c2];
    [eexists; split; [simpl; flatten_trace; reflexivity|auto 6]|].
  destruct (serialisable c2);
    [|eexists; split; [simpl; flatten_trace; reflexivity|auto 6]].
  exists [EvRequest (index_post request); EvRequest (index_get request);
          EvRequest (agent_get request); EvRequest (agent_put request c2)].
  split; [|eauto 8].
  destruct (upstream _ (agent_put request c2)) as [e|r3];
    [|destruct (status_code r3 =? 200)]; simpl; flatten_trace; reflexivity.
Qed.

Lemma dict_set_same_value (k : string) (v : json) (d : dict) :
  dict_get k d = Some v -> dict_set k v d = d.
Proof.
  induction d as [|[k' v'] d IH]; simpl; [discriminate|].
  destruct (String.eqb k k') eqn:E.
  - now intros [= ->].
  - intros H. now rewrite IH.
Qed.

Lemma update_docs_idempotent (request : RAGRequest) (docs docs' : list json) :
  update_docs request docs = inr docs' ->
  update_docs request docs' = inr docs'.
Proof.
  revert docs'. induction docs as [|doc rest IH]; simpl; intros docs' H.
  - now injection H as <-.
  - destruct (getitem doc "id") as [|id] eqn:E1; try discriminate.
    destruct (if eq_str id (document_id request)
              then setitem doc "usage_mode" (JStr "auto") else inr doc)
      as [|doc'] eqn:E2; try discriminate.
    destruct (update_docs request rest) as [|rest'] eqn:E3; try discriminate.
    injection H as <-. simpl. rewrite (IH rest' eq_refl).
    apply getitem_inr in E1 as (e & -> & He).
    destruct (eq_str id (document_id request)) eqn:Hid.
    + simpl in E2. injection E2 as <-. simpl.
      rewrite dict_get_set_other by discriminate. rewrite He, Hid. simpl.
      now rewrite dict_set_same_value by apply dict_get_set_same.
    + injection E2 as <-. simpl. now rewrite He, Hid.
Qed.

Lemma update_kb_idempotent (request : RAGRequest) (kb kb' : json) :
  update_kb request kb = inr kb' -> update_kb request kb' = inr kb'.
Proof.
  unfold update_kb. intros H.
  destruct kb as [| | | |s|docs|d]; try discriminate.
  - destruct s; [|discriminate]. now injection H as <-.
  - destruct (update_docs request docs) as [|docs'] eqn:E; try discriminate.
    injection H as <-. now rewrite (update_docs_idempotent _ _ _ E).
  - destruct d as [|[k v] d]; [|discriminate]. now injection H as <-.
Qed.

Lemma update_docs_fails (request : RAGRequest) (docs : list json) :
  forallb has_id docs = false ->
  exists e, update_docs request docs = inl e.
Proof.
  induction docs as [|doc rest IH]; simpl; [discriminate|]. intros H.
  destruct (getitem doc "id") as [e|id] eqn:E1; [eauto|].
  apply getitem_inr in E1 as (fields & -> & Hid).
  simpl in H. rewrite Hid in H. simpl in H.
  destruct (IH H) as [e ->].
  destruct (eq_str id (document_id request)); simpl; eauto.
Qed.

(** X1.  A status poll answered with a status other than 200 ends the
    workflow after that poll, without a sleep; the failure that leaves
    [process_rag] has code 500 and for detail [str()] of the
    [HTTPException] with the upstream status and the message
    "Failed to check indexing status". *)
Theorem rejected_poll_leaves_with_500 (request : RAGRequest) (t : Trace)
    (r : Response) :
  accepted (upstream t (index_post request)) = true ->
  upstream (t ++ [EvRequest (index_post request)])%list (index_get request)
  = Responds r ->
  status_code r <> 200 ->
  process_rag request t =
  (inl (HTTPException 500
          (str (HTTPException (status_code r)
                  "Failed to check indexing status"))),
   (t ++ [EvRequest (index_post request);
          EvRequest (index_get request)])%list).
Proof.
  intros H0 Hr Hne. apply Z.eqb_neq in Hne.
  apply accepted_true in H0 as (r0 & Hr0 & H200).
  unfold process_rag, try_except.
  rewrite process_rag_body_steps. cbv zeta.
  rewrite Hr0, H200, poll_step by reflexivity. cbv zeta.
  rewrite Hr, Hne. flatten_trace. reflexivity.
Qed.

(** X2.  A fetch of the agent configuration answered with a status other
    than 200 ends the workflow without a write-back; the failure has code
    500 and for detail [str()] of the [HTTPException] with the upstream
    status and the message "Failed to get agent configuration". *)
Theorem rejected_fetch_leaves_with_500 (request : RAGRequest) (t : Trace)
    (r : Response) :
  accepted (upstream t (index_post request)) = true ->
  reported_status
    (upstream (t ++ [EvRequest (index_post request)])%list
       (index_get request)) = Some (JStr "SUCCEEDED") ->
  upstream
    (t ++ [EvRequest (index_post request);
           EvRequest (index_get request)])%list
    (agent_get request) = Responds r ->
  status_code r <> 200 ->
  process_rag request t =
  (inl (HTTPException 500
          (str (HTTPException (status_code r)
                  "Failed to get agent configuration"))),
   (t ++ [EvRequest (index_post request);
          EvRequest (index_get request);
          EvRequest (agent_get request)])%list).
Proof.
  intros H0 H1 Hr Hne. apply Z.eqb_neq in Hne.
  apply accepted_true in H0 as (r0 & Hr0 & H200).
  unfold process_rag, try_except.
  rewrite process_rag_body_steps. cbv zeta.
  rewrite Hr0, H200, (first_poll _ _ _ H1). cbv zeta. cbn [eq_str].
  change (String.eqb "SUCCEEDED" "SUCCEEDED") with true. cbv iota.
  flatten_trace. rewrite Hr, Hne. reflexivity.
Qed.

(** X3.  A write-back answered with a status other than 200 fails the
    workflow with code 500 (detail: [str()] of the [HTTPException] with
    the upstream status and "Failed to update agent configuration"),
    after the PUT of the mutated configuration was sent; the fetched
    configuration is one that can be sent (its floats are finite). *)
Theorem rejected_write_back_leaves_with_500 (request : RAGRequest)
    (t : Trace) (config : json) (r : Response) :
  accepted (upstream t (index_post request)) = true ->
  reported_status
    (upstream (t ++ [EvRequest (index_post request)])%list
       (index_get request)) = Some (JStr "SUCCEEDED") ->
  parsed
    (upstream
       (t ++ [EvRequest (index_post request);
              EvRequest (index_get request)])%list
       (agent_get request)) = Some config ->
  well_formed_config config = true ->
  serialisable config = true ->
  (forall config',
      mutate request config = inr config' ->
      upstream
        (t ++ [EvRequest (index_post request);
               EvRequest (index_get request);
               EvRequest (agent_get request)])%list
        (agent_put request config') = Responds r) ->
  status_code r <> 200 ->
  exists config',
    mutate request config = inr config' /\
    process_rag request t =
    (inl (HTTPException 500
            (str (HTTPException (status_code r)
                    "Failed to update agent configuration"))),
     (t ++ [EvRequest (index_post request);
            EvRequest (index_get request);
            EvRequest (agent_get request);
            EvRequest (agent_put request config')])%list).
Proof.
  intros H0 H1 H2 Hwf Hser Hput Hne. apply Z.eqb_neq in Hne.
  unfold well_formed_config in Hwf.
  destruct (knowledge_base config) as [docs|] eqn:Hkb; [|discriminate].
  destruct (mutation_total_mutate request config docs Hkb Hwf)
    as (c2 & docs' & Hc2 & _ & _).
  exists c2. split; [assumption|].
  unfold process_rag, try_except.
  rewrite (process_rag_body_write_back request t config)
    by (repeat split; assumption).
  cbv zeta.
  rewrite Hc2, (mutate_serialisable _ _ _ Hc2 Hser), (Hput c2 Hc2), Hne.
  flatten_trace. reflexivity.
Qed.

(** X4.  Whatever the upstream does, a run of [process_rag] adds between
    one and four events to the trace, the first of which is the submit
    call, and polls the indexing status at most once. *)
Theorem workflow_call_budget (request : RAGRequest) (t : Trace) :
  exists events,
    snd (process_rag request t) = (t ++ events)%list /\
    hd_error events = Some (EvRequest (index_post request)) /\
    (List.length events <= 4)%nat /\
    (status_calls request events <= 1)%nat.
Proof.
  destruct (process_rag_events request t) as (events & Hsnd & Hshape).
  exists events. split; [assumption|].
  assert (forall c, call_eqb_index_get request (agent_put request c) = false)
    as Hput by reflexivity.
  assert (call_eqb_index_get request (index_get request) = true) as Hget.
  { unfold call_eqb_index_get. cbn. now rewrite !String.eqb_refl. }
  assert (call_eqb_index_get request (agent_get request) = false) as Haget.
  { unfold call_eqb_index_get. cbn [agent_get method body url].
    now rewrite agent_url_not_index_url. }
  assert (call_eqb_index_get request (index_post request) = false)
    as Hpost by reflexivity.
  destruct Hshape as [->|[->|[->|[->|[c ->]]]]];
    unfold status_calls; cbn [filter is_status_call hd_error List.length];
    rewrite ?Hput, ?Hget, ?Haget, ?Hpost; cbn [List.length];
    repeat split; lia.
Qed.

(** X5.  Whatever the upstream does, every call of a run of [process_rag]
    carries the API key of the request and goes to the index URL of its
    document or to the URL of its agent, and every sleep lasts five
    seconds. *)
Theorem workflow_calls_use_the_request (request : RAGRequest) (t : Trace) :
  exists events,
    snd (process_rag request t) = (t ++ events)%list /\
    Forall (workflow_event request) events.
Proof.
  destruct (process_rag_events request t) as (events & Hsnd & Hshape).
  exists events. split; [assumption|].
  destruct Hshape as [->|[->|[->|[->|[c ->]]]]];
    repeat (apply Forall_cons; [cbn; auto|]); apply Forall_nil.
Qed.

(** X6.  [process_rag] returns only after the whole workflow went through:
    when it returns, what it returns is the success dict, the trace has
    grown by the four calls in order, the submit was accepted, the one
    poll reported SUCCEEDED, the fetch gave a document, the body of the
    PUT is that document mutated, and the PUT was accepted. *)
Theorem success_means_all_steps_passed (request : RAGRequest) (t t' : Trace)
    (v : json) :
  process_rag request t = (inr v, t') ->
  v = success /\
  accepted (upstream t (index_post request)) = true /\
  reported_status
    (upstream (t ++ [EvRequest (index_post request)])%list
       (index_get request)) = Some (JStr "SUCCEEDED") /\
  exists config config',
    parsed
      (upstream
         (t ++ [EvRequest (index_post request);
                EvRequest (index_get request)])%list
         (agent_get request)) = Some config /\
    mutate request config = inr config' /\
    written_back request config config' /\
    accepted
      (upstream
         (t ++ [EvRequest (index_post request);
                EvRequest (index_get request);
                EvRequest (agent_get request)])%list
         (agent_put request config')) = true /\
    t' = (t ++ [EvRequest (index_post request);
                EvRequest (index_get request);
                EvRequest (agent_get request);
                EvRequest (agent_put request config')])%list.
Proof.
  unfold process_rag, try_except.
  destruct (process_rag_body request t) as [[e|v0] t0] eqn:Hbody;
    [discriminate|].
  intros [= -> ->]. revert Hbody.
  rewrite process_rag_body_steps. cbv zeta.
  rewrite poll_step by reflexivity. cbv zeta. flatten_trace.
  destruct (upstream t (index_post request)) as [e|r0]; [discriminate|].
  destruct (status_code r0 =? 200) eqn:Hs0; [|discriminate].
  destruct (upstream _ (index_get request)) as [e|r1]; [discriminate|].
  destruct (status_code r1 =? 200) eqn:Hs1; [|discriminate].
  destruct (json_result r1) as [e|j] eqn:Hj; [discriminate|].
  destruct (py_get j "status") as [e|status] eqn:Hs; [discriminate|].
  destruct (eq_str status "SUCCEEDED") eqn:Hok;
    [|destruct (eq_str status "FAILED"); discriminate].
  apply eq_str_true in Hok. subst status.
  destruct (upstream _ (agent_get request)) as [e|r2]; [discriminate|].
  destruct (status_code r2 =? 200) eqn:Hs2; [|discriminate].
  destruct (json_result r2) as [e|config] eqn:Hcfg; [discriminate|].
  destruct (enable_rag request config) as [e|c1] eqn:Hc1; [discriminate|].
  destruct (update_usage_mode request c1) as [e|c2] eqn:Hc2; [discriminate|].
  destruct (serialisable c2); [|discriminate].
  destruct (upstream _ (agent_put request c2)) as [e|r3] eqn:Hr3;
    [discriminate|].
  destruct (status_code r3 =? 200) eqn:Hs3; [|discriminate].
  intros [= <- <-].
  split; [reflexivity|].
  split; [exact Hs0|].
  split; [unfold reported_status, parsed; now rewrite Hs1, Hj, Hs|].
  exists config, c2.
  split; [unfold parsed; now rewrite Hs2, Hcfg|].
  split; [unfold mutate; now rewrite Hc1|].
  split; [now apply mutation_written_back with (c1 := c1)|].
  split; [unfold accepted; now rewrite Hr3|].
  flatten_trace. reflexivity.
Qed.

(** X7.  The mutation of the configuration is idempotent: mutating the
    document that a mutation gave changes nothing, so that running the
    workflow again for the same document would write the same
    configuration. *)
Theorem mutate_idempotent (request : RAGRequest) (config config' : json) :
  mutate request config = inr config' ->
  mutate request config' = inr config'.
Proof.
  unfold mutate.
  destruct (enable_rag request config) as [e|c1] eqn:H1; [discriminate|].
  intros H2.
  apply enable_rag_inr in H1 as (d & a & p & -> & Hd & Ha & ->).
  apply update_usage_mode_inr in H2
    as (d1 & a1 & p1 & kb & kb' & [= <-] & Hd1 & Ha1 & Hp1 & Hkb & ->).
  rewrite dict_get_set_same in Hd1. injection Hd1 as <-.
  rewrite dict_get_set_same in Ha1. injection Ha1 as <-.
  set (p1 := dict_set "rag" (rag_config request) p) in *.
  set (a1 := dict_set "prompt" (JObj p1) a) in *.
  set (d1 := dict_set "agent" (JObj a1) d) in *.
  set (p2 := dict_set "knowledge_base" kb' p1).
  set (a2 := dict_set "prompt" (JObj p2) a1).
  set (d2 := dict_set "agent" (JObj a2) d1).
  assert (dict_get "agent" d2 = Some (JObj a2)) as Hd2
      by apply dict_get_set_same.
  assert (dict_get "prompt" a2 = Some (JObj p2)) as Ha2
      by apply dict_get_set_same.
  assert (dict_get "rag" p2 = Some (rag_config request)) as Hrag.
  { unfold p2. rewrite dict_get_set_other by discriminate.
    apply dict_get_set_same. }
  assert (dict_get "knowledge_base" p2 = Some kb') as Hkb2
      by apply dict_get_set_same.
  unfold enable_rag. cbn [getitem]. rewrite Hd2. cbn [getitem].
  rewrite Ha2. cbn [setitem].
  rewrite (dict_set_same_value _ _ _ Hrag).
  rewrite (dict_set_same_value _ _ _ Ha2).
  rewrite (dict_set_same_value _ _ _ Hd2).
  unfold update_usage_mode. cbn [getitem]. rewrite Hd2. cbn [getitem].
  rewrite Ha2. cbn [getitem]. rewrite Hkb2.
  rewrite (update_kb_idempotent _ _ _ Hkb). cbn [setitem].
  rewrite (dict_set_same_value _ _ _ Hkb2).
  rewrite (dict_set_same_value _ _ _ Ha2).
  now rewrite (dict_set_same_value _ _ _ Hd2).
Qed.

(** X8.  A fetched configuration whose prompt has no [knowledge_base] is
    not written back: the workflow stops after the fetch and fails with
    code 500, the detail being the missing key between quotes. *)
Theorem missing_knowledge_base_leaves_with_500 (request : RAGRequest)
    (t : Trace) (d a p : dict) :
  accepted (upstream t (index_post request)) = true ->
  reported_status
    (upstream (t ++ [EvRequest (index_post request)])%list
       (index_get request)) = Some (JStr "SUCCEEDED") ->
  parsed
    (upstream
       (t ++ [EvRequest (index_post request);
              EvRequest (index_get request)])%list
       (agent_get request)) = Some (JObj d) ->
  dict_get "agent" d = Some (JObj a) ->
  dict_get "prompt" a = Some (JObj p) ->
  dict_get "knowledge_base" p = None ->
  process_rag request t =
  (inl (HTTPException 500 "'knowledge_base'"),
   (t ++ [EvRequest (index_post request);
          EvRequest (index_get request);
          EvRequest (agent_get request)])%list).
Proof.
  intros H0 H1 H2 Hd Ha Hp.
  unfold process_rag, try_except.
  rewrite (process_rag_body_fetch _ _ _ H0 H1 H2). cbv zeta.
  unfold enable_rag. cbn [getitem]. rewrite Hd. cbn [getitem].
  rewrite Ha. cbn [setitem].
  unfold update_usage_mode. cbn [getitem]. rewrite dict_get_set_same.
  cbn [getitem]. rewrite dict_get_set_same. cbn [getitem].
  rewrite dict_get_set_other by discriminate. rewrite Hp. reflexivity.
Qed.

(** X9.  The write-back is all or nothing: when one entry of the fetched
    knowledge-base list is no dict with an [id], nothing is written back,
    whatever the other entries are; the workflow stops after the fetch
    and fails with code 500. *)
Theorem malformed_entry_blocks_write_back (request : RAGRequest) (t : Trace)
    (config : json) (docs : list json) :
  accepted (upstream t (index_post request)) = true ->
  reported_status
    (upstream (t ++ [EvRequest (index_post request)])%list
       (index_get request)) = Some (JStr "SUCCEEDED") ->
  parsed
    (upstream
       (t ++ [EvRequest (index_post request);
              EvRequest (index_get request)])%list
       (agent_get request)) = Some config ->
  knowledge_base config = Some docs ->
  forallb has_id docs = false ->
  exists e,
    process_rag request t =
    (inl (HTTPException 500 (str e)),
     (t ++ [EvRequest (index_post request);
            EvRequest (index_get request);
            EvRequest (agent_get request)])%list).
Proof.
  intros H0 H1 H2 Hkb Hbad.
  apply knowledge_base_some in Hkb as (d & a & p & -> & Hd & Ha & Hp).
  destruct (update_docs_fails request docs Hbad) as [e He].
  exists e. unfold process_rag, try_except.
  rewrite (process_rag_body_fetch _ _ _ H0 H1 H2). cbv zeta.
  unfold enable_rag. cbn [getitem]. rewrite Hd. cbn [getitem].
  rewrite Ha. cbn [setitem].
  unfold update_usage_mode. cbn [getitem]. rewrite dict_get_set_same.
  cbn [getitem]. rewrite dict_get_set_same. cbn [getitem].
  rewrite dict_get_set_other by discriminate. rewrite Hp.
  cbn [update_kb]. rewrite He. reflexivity.
Qed.

(** X10.  The status of a poll is compared exactly: whatever the poll
    reports that is neither the string "SUCCEEDED" nor the string
    "FAILED" (another word, another case, no status at all) counts as
    not finished; the workflow sleeps five seconds and then fails with
    code 500 on the [await]. *)
Theorem other_status_is_not_finished (request : RAGRequest) (t : Trace)
    (s : json) :
  accepted (upstream t (index_post request)) = true ->
  reported_status
    (upstream (t ++ [EvRequest (index_post request)])%list
       (index_get request)) = Some s ->
  s <> JStr "SUCCEEDED" ->
  s <> JStr "FAILED" ->
  process_rag request t =
  (inl (HTTPException 500 (str await_error)),
   (t ++ [EvRequest (index_post request); EvRequest (index_get request);
          EvSleep 5])%list).
Proof.
  intros H0 H1 Hs Hf.
  apply unfinished_poll_ends_workflow with (s := s); auto.
  - destruct (eq_str s "SUCCEEDED") eqn:E; [|reflexivity].
    now apply eq_str_true in E.
  - destruct (eq_str s "FAILED") eqn:E; [|reflexivity].
    now apply eq_str_true in E.
Qed.

(** ** Properties of [handle_conversation] *)

Lemma handle_conversation_body_steps (request : ConversationRequest)
    (t : Trace) :
  handle_conversation_body request t =
  let t1 := (t ++ [EvRequest (conversation_post request)])%list in
  match upstream t (conversation_post request) with
  | Raises e => (inl e, t1)
  | Responds r =>
      if status_code r =? 200 then
        match json_result r with
        | inl e => (inl e, t1)
        | inr data =>
            match last_item (messages request) with
            | inl e => (inl e, t1)
            | inr last_message =>
                if is_farewell (content last_message) then
                  match py_get data "document_id" with
                  | inl e => (inl e, t1)
                  | inr doc_id =>
                      if truthy doc_id then
                        match RAGRequest_new doc_id (conv_agent_id request)
                                (conv_api_key request) with
                        | inl e => (inl e, t1)
                        | inr rag_request =>
                            match process_rag rag_request t1 with
                            | (inl e, t2) => (inl e, t2)
                            | (inr _, t2) =>
                                match setitem data "rag_status"
                                        (JStr "processed") with
                                | inl e => (inl e, t2)
                                | inr data' => (inr data', t2)
                                end
                            end
                        end
                      else (inr data, t1)
                  end
                else (inr data, t1)
            end
        end
      else
        (inl (HTTPException (status_code r) "Failed to process conversation"),
         t1)
  end.
Proof.
  unfold handle_conversation_body, is_farewell. cbv zeta.
  unfold bind at 1. unfold requests_post.
  rewrite conversation_body_serialisable. unfold send.
  fold (conversation_post request).
  destruct (upstream t _) as [e|r]; [reflexivity|].
  destruct (status_code r =? 200); [|reflexivity]. cbn [negb].
  unfold bind, lift, ret.
  destruct (json_result r) as [e|data]; [reflexivity|].
  destruct (last_item (messages request)) as [e|m]; [reflexivity|].
  destruct (str_in _ _); [|reflexivity].
  destruct (py_get data "document_id") as [e|doc_id]; [reflexivity|].
  destruct (truthy doc_id); [|reflexivity].
  destruct (RAGRequest_new _ _ _) as [e|rag]; [reflexivity|].
  destruct (process_rag rag _) as [[e|v] t2]; [reflexivity|].
  destruct (setitem data _ _); reflexivity.
Qed.

Lemma last_item_app {A : Type} (l : list A) (x : A) :
  last_item (l ++ [x])%list = inr x.
Proof.
  unfold last_item. now rewrite rev_unit.
Qed.

Lemma same_letter_lower (c c' : ascii) :
  same_letter c c' = true -> lower_ascii c = lower_ascii c'.
Proof.
  unfold same_letter, is_upper, lower_ascii. cbv zeta. intros H.
  apply orb_prop in H as [H|H]; [apply orb_prop in H as [H|H]|].
  - apply Ascii.eqb_eq in H. now subst.
  - apply andb_prop in H as [Hup Heq]. apply Nat.eqb_eq in Heq.
    rewrite Hup. apply andb_prop in Hup as [Hlo Hhi].
    apply Nat.leb_le in Hlo. apply Nat.leb_le in Hhi.
    assert ((nat_of_ascii c' <=? 90)%nat = false) as Hno
        by (apply Nat.leb_gt; lia).
    rewrite Hno, andb_false_r, Heq. apply ascii_nat_embedding.
  - apply andb_prop in H as [Hup Heq]. apply Nat.eqb_eq in Heq.
    rewrite Hup. apply andb_prop in Hup as [Hlo Hhi].
    apply Nat.leb_le in Hlo. apply Nat.leb_le in Hhi.
    assert ((nat_of_ascii c <=? 90)%nat = false) as Hno
        by (apply Nat.leb_gt; lia).
    rewrite Hno, andb_false_r, Heq. symmetry. apply ascii_nat_embedding.
Qed.

Lemma same_ignoring_case_lower (s s' : string) :
  same_ignoring_case s s' = true -> lower s = lower s'.
Proof.
  revert s'. induction s as [|c s IH]; intros [|c' s']; simpl;
    try discriminate; [reflexivity|].
  intros H. apply andb_prop in H as [Hc Hs].
  now rewrite (same_letter_lower _ _ Hc), (IH _ Hs).
Qed.

(** X11.  A relay call answered with a status other than 200 fails the
    request after that one call, with code 500 and for detail [str()] of
    the [HTTPException] with the upstream status and the message
    "Failed to process conversation", whatever the messages are. *)
Theorem rejected_relay_leaves_with_500 (request : ConversationRequest)
    (t : Trace) (r : Response) :
  upstream t (conversation_post request) = Responds r ->
  status_code r <> 200 ->
  handle_conversation request t =
  (inl (HTTPException 500
          (str (HTTPException (status_code r)
                  "Failed to process conversation"))),
   (t ++ [EvRequest (conversation_post request)])%list).
Proof.
  intros Hr Hne. apply Z.eqb_neq in Hne.
  unfold handle_conversation, try_except.
  rewrite handle_conversation_body_steps. cbv zeta.
  now rewrite Hr, Hne.
Qed.

(** X12.  When the last message is no farewell, [handle_conversation]
    makes the relay call and nothing else, and returns the decoded answer
    of the relay as it is, whatever kind of document it is. *)
Theorem conversation_without_farewell_is_relayed
    (request : ConversationRequest) (t : Trace) (earlier : list Message)
    (last : Message) (data : json) :
  messages request = (earlier ++ [last])%list ->
  is_farewell (content last) = false ->
  parsed (upstream t (conversation_post request)) = Some data ->
  handle_conversation request t =
  (inr data, (t ++ [EvRequest (conversation_post request)])%list).
Proof.
  intros Hm Hno Hp. apply parsed_some in Hp as (r & Hr & H200 & Hj).
  unfold handle_conversation, try_except.
  rewrite handle_conversation_body_steps. cbv zeta.
  now rewrite Hr, H200, Hj, Hm, last_item_app, Hno.
Qed.

(** X13.  A farewell does not start the activation when the relay answer
    is a dict whose [document_id] is missing or falsy (null, the empty
    string, zero): the answer is returned as it is after the one relay
    call. *)
Theorem farewell_without_document_is_relayed
    (request : ConversationRequest) (t : Trace) (earlier : list Message)
    (last : Message) (data doc_id : json) :
  messages request = (earlier ++ [last])%list ->
  is_farewell (content last) = true ->
  parsed (upstream t (conversation_post request)) = Some data ->
  py_get data "document_id" = inr doc_id ->
  truthy doc_id = false ->
  handle_conversation request t =
  (inr data, (t ++ [EvRequest (conversation_post request)])%list).
Proof.
  intros Hm Hyes Hp Hdoc Hfalsy.
  apply parsed_some in Hp as (r & Hr & H200 & Hj).
  unfold handle_conversation, try_except.
  rewrite handle_conversation_body_steps. cbv zeta.
  now rewrite Hr, H200, Hj, Hm, last_item_app, Hyes, Hdoc, Hfalsy.
Qed.

(** X14.  A farewell with a relay answer that names a document runs the
    activation for that document, with the agent and key of the
    conversation, the default embedding model and the default length,
    right after the relay call.  When the activation returns, the relay
    answer is returned with [rag_status] set to "processed"; when it
    fails, the request fails with code 500 and [str()] of that failure. *)
Theorem farewell_runs_the_activation (request : ConversationRequest)
    (t : Trace) (earlier : list Message) (last : Message)
    (fields : dict) (doc : string) :
  messages request = (earlier ++ [last])%list ->
  is_farewell (content last) = true ->
  parsed (upstream t (conversation_post request)) = Some (JObj fields) ->
  dict_get "document_id" fields = Some (JStr doc) ->
  doc <> "" ->
  handle_conversation request t =
  match process_rag (rag_request_for request doc)
          (t ++ [EvRequest (conversation_post request)])%list with
  | (inl e, t') => (inl (HTTPException 500 (str e)), t')
  | (inr _, t') =>
      (inr (JObj (dict_set "rag_status" (JStr "processed") fields)), t')
  end.
Proof.
  intros Hm Hyes Hp Hdoc Hne.
  apply parsed_some in Hp as (r & Hr & H200 & Hj).
  apply String.eqb_neq in Hne.
  unfold handle_conversation, try_except.
  rewrite handle_conversation_body_steps. cbv zeta.
  rewrite Hr, H200, Hj, Hm, last_item_app, Hyes.
  cbn [py_get]. rewrite Hdoc. cbn [truthy]. rewrite Hne. cbn [negb].
  unfold RAGRequest_new. fold (rag_request_for request doc).
  destruct (process_rag _ _) as [[e|v] t']; reflexivity.
Qed.

(** X15.  A failure of the activation loses the conversation: under the
    conditions of X14, when [process_rag] fails, [handle_conversation]
    returns no relay answer; it fails with code 500, and its detail is
    [str()] of an [HTTPException] that has code 500 itself. *)
Theorem failed_activation_fails_the_conversation
    (request : ConversationRequest) (t : Trace) (earlier : list Message)
    (last : Message) (fields : dict) (doc : string) (e : Exception) :
  messages request = (earlier ++ [last])%list ->
  is_farewell (content last) = true ->
  parsed (upstream t (conversation_post request)) = Some (JObj fields) ->
  dict_get "document_id" fields = Some (JStr doc) ->
  doc <> "" ->
  fst (process_rag (rag_request_for request doc)
         (t ++ [EvRequest (conversation_post request)])%list) = inl e ->
  exists detail,
    e = HTTPException 500 detail /\
    handle_conversation request t =
    (inl (HTTPException 500 (str_HTTPException 500 detail)),
     snd (process_rag (rag_request_for request doc)
            (t ++ [EvRequest (conversation_post request)])%list)).
Proof.
  intros Hm Hyes Hp Hdoc Hne.
  apply parsed_some in Hp as (r & Hr & H200 & Hj).
  apply String.eqb_neq in Hne.
  unfold handle_conversation at 1, try_except.
  rewrite handle_conversation_body_steps. cbv zeta.
  rewrite Hr, H200, Hj, Hm, last_item_app, Hyes.
  cbn [py_get]. rewrite Hdoc. cbn [truthy]. rewrite Hne. cbn [negb].
  unfold RAGRequest_new. fold (rag_request_for request doc).
  unfold process_rag, try_except.
  destruct (process_rag_body _ _) as [[e0|v] t']; simpl; [|discriminate].
  intros [= <-]. eexists. split; reflexivity.
Qed.

(** X16.  Whatever the upstream does and whatever the messages are,
    [handle_conversation] first makes the relay call, with all the
    messages, and after it adds at most four events to the trace. *)
Theorem conversation_call_budget (request : ConversationRequest)
    (t : Trace) :
  exists rest,
    snd (handle_conversation request t) =
    (t ++ EvRequest (conversation_post request) :: rest)%list /\
    (List.length rest <= 4)%nat.
Proof.
  unfold handle_conversation, try_except.
  rewrite handle_conversation_body_steps. cbv zeta.
  assert (forall (x : Result json),
             exists rest,
               snd (x, (t ++ [EvRequest (conversation_post request)])%list)
               = (t ++ EvRequest (conversation_post request) :: rest)%list /\
               (List.length rest <= 4)%nat) as Hone.
  { intros x. exists []. split; [reflexivity|simpl; lia]. }
  destruct (upstream t _) as [e|r]; [apply Hone|].
  destruct (status_code r =? 200); [|apply Hone].
  destruct (json_result r) as [e|data]; [apply Hone|].
  destruct (last_item (messages request)) as [e|m]; [apply Hone|].
  destruct (is_farewell (content m)); [|apply Hone].
  destruct (py_get data "document_id") as [e|doc_id]; [apply Hone|].
  destruct (truthy doc_id); [|apply Hone].
  destruct (RAGRequest_new _ _ _) as [e|rag]; [apply Hone|].
  destruct (process_rag_events rag
              (t ++ [EvRequest (conversation_post request)])%list)
    as (events & Hsnd & Hshape).
  exists events. split.
  - destruct (process_rag rag _) as [[e|v] t2]; simpl in Hsnd; subst t2;
      [|destruct (setitem data _ _)]; simpl; flatten_trace; reflexivity.
  - destruct Hshape as [->|[->|[->|[->|[c ->]]]]]; simpl; lia.
Qed.

(** X17.  The farewell test ignores the case of the ASCII letters: two
    texts that are the same character by character, up to an ASCII
    letter being a capital in one and small in the other, are both
    farewells or both not. *)
Theorem farewell_ignores_case (text text' : string) :
  same_ignoring_case text text' = true ->
  is_farewell text = is_farewell text'.
Proof.
  intros H. unfold is_farewell. now rewrite (same_ignoring_case_lower _ _ H).
Qed.

(** X18.  On a farewell the relay answer has to be a dict: an answer of
    any other kind, which would be returned as it is after any other
    message, fails the request with code 500 on the lookup of
    [document_id], after the one relay call. *)
Theorem farewell_needs_a_dict (request : ConversationRequest) (t : Trace)
    (earlier : list Message) (last : Message) (data : json) :
  messages request = (earlier ++ [last])%list ->
  is_farewell (content last) = true ->
  parsed (upstream t (conversation_post request)) = Some data ->
  (forall fields, data <> JObj fields) ->
  handle_conversation request t =
  (inl (HTTPException 500
          ("'" ++ type_name data ++ "' object has no attribute 'get'")),
   (t ++ [EvRequest (conversation_post request)])%list).
Proof.
  intros Hm Hyes Hp Hnodict.
  apply parsed_some in Hp as (r & Hr & H200 & Hj).
  unfold handle_conversation, try_except.
  rewrite handle_conversation_body_steps. cbv zeta.
  rewrite Hr, H200, Hj, Hm, last_item_app, Hyes.
  destruct data as [| | | | | |fields]; try reflexivity.
  now destruct (Hnodict fields).
Qed.

End Workflow.

(** ** The properties at concrete runs *)

(** A fetched document without [agent] is a [KeyError] at the mutation. *)
Example fetch_without_agent :
  process_rag str_code_detail
    (scripted [ok JNull; ok (status_body "SUCCEEDED");
               ok (JObj [("name", JStr "helper")])])
    sample_request [] =
  (inl (HTTPException 500 "'agent'"),
   [EvRequest (index_post sample_request);
    EvRequest (index_get sample_request);
    EvRequest (agent_get sample_request)]).
Proof. reflexivity. Qed.

(** A fetched document with an infinite float goes through the mutation
    and is not sent. *)
Example fetch_with_infinite_float :
  process_rag str_code_detail
    (scripted [ok JNull; ok (status_body "SUCCEEDED");
               ok (JObj [("agent",
                          JObj [("prompt",
                                 JObj [("knowledge_base", JArr []);
                                       ("temperature",
                                        JFloat (S754_infinity false))])])])])
    sample_request [] =
  (inl (HTTPException 500
          "Out of range float values are not JSON compliant"),
   [EvRequest (index_post sample_request);
    EvRequest (index_get sample_request);
    EvRequest (agent_get sample_request)]).
Proof. reflexivity. Qed.

Lemma rejected_submit_at_404 :
  let upstream := scripted [Responds (mkResponse 404 (inr JNull))] in
  upstream [] (index_post sample_request)
  = Responds (mkResponse 404 (inr JNull)) /\
  404 <> 200 /\
  process_rag str_code_detail upstream sample_request [] =
  (inl (HTTPException 500 "404: Failed to index document"),
   [EvRequest (index_post sample_request)]).
Proof.
  split; [reflexivity|]. split; [lia|].
  apply (rejected_submit_leaves_with_500 str_code_detail
           (scripted [Responds (mkResponse 404 (inr JNull))])
           sample_request [] (mkResponse 404 (inr JNull)));
    [reflexivity|simpl; lia].
Defined.

Lemma put_of_two_entries :
  let upstream := smooth_upstream two_entries in
  let fetch :=
    [EvRequest (index_post sample_request);
     EvRequest (index_get sample_request);
     EvRequest (agent_get sample_request)] in
  snd (process_rag str_code_detail upstream sample_request []) =
  (fetch ++ [EvRequest (agent_put sample_request written_sample)])%list /\
  method (agent_put sample_request written_sample) = PUT /\
  exists config config',
    fetch = fetch /\
    parsed
      (upstream
         [EvRequest (index_post sample_request);
          EvRequest (index_get sample_request)]
         (agent_get sample_request)) = Some config /\
    agent_put sample_request written_sample
    = agent_put sample_request config' /\
    written_back sample_request config config'.
Proof.
  split; [reflexivity|]. split; [reflexivity|].
  apply (put_writes_back_the_fetched_configuration str_code_detail
           (smooth_upstream two_entries) sample_request []
           [EvRequest (index_post sample_request);
            EvRequest (index_get sample_request);
            EvRequest (agent_get sample_request)]
           (agent_put sample_request written_sample));
    reflexivity.
Defined.

Lemma pending_then_succeeded_run :
  let upstream := pending_then_succeeded sample_request in
  let events :=
    [EvRequest (index_post sample_request);
     EvRequest (index_get sample_request); EvSleep 5] in
  accepted (upstream [] (index_post sample_request)) = true /\
  process_rag str_code_detail upstream sample_request [] =
  (inl (HTTPException 500
          "object NoneType can't be used in 'await' expression"), events) /\
  status_calls sample_request events = 1%nat.
Proof.
  split; [reflexivity|].
  apply (pending_then_succeeded_stops_at_first_poll str_code_detail
           (pending_then_succeeded sample_request) sample_request []).
  - reflexivity.
  - intros t'. cbn [app]. unfold pending_then_succeeded.
    change (call_eqb_index_get sample_request (index_get sample_request))
      with true. cbv iota.
    destruct (status_calls sample_request t' <? 3)%nat; reflexivity.
Defined.

Lemma failed_poll_run :
  let upstream := scripted [ok JNull; ok (status_body "FAILED")] in
  accepted (upstream [] (index_post sample_request)) = true /\
  reported_status
    (upstream [EvRequest (index_post sample_request)]
       (index_get sample_request)) = Some (JStr "FAILED") /\
  process_rag str_code_detail upstream sample_request [] =
  (inl (HTTPException 500 "400: Failed to index document"),
   [EvRequest (index_post sample_request);
    EvRequest (index_get sample_request)]).
Proof.
  split; [reflexivity|]. split; [reflexivity|].
  apply (failed_poll_leaves_with_500 str_code_detail
           (scripted [ok JNull; ok (status_body "FAILED")])
           sample_request []); reflexivity.
Defined.

Lemma always_pending_run :
  let upstream := always_pending sample_request in
  let events :=
    [EvRequest (index_post sample_request);
     EvRequest (index_get sample_request); EvSleep 5] in
  accepted (upstream [] (index_post sample_request)) = true /\
  process_rag str_code_detail upstream sample_request [] =
  (inl (HTTPException 500
          "object NoneType can't be used in 'await' expression"), events) /\
  status_calls sample_request events = 1%nat /\
  "object NoneType can't be used in 'await' expression"
  <> "Timeout waiting for document indexing".
Proof.
  split; [reflexivity|].
  apply (always_pending_stops_at_first_poll str_code_detail
           (always_pending sample_request) sample_request []).
  - reflexivity.
  - intros t'. reflexivity.
Defined.

Lemma activation_of_two_entries :
  let upstream := smooth_upstream two_entries in
  accepted (upstream [] (index_post sample_request)) = true /\
  well_formed_config (sample_config two_entries) = true /\
  serialisable (sample_config two_entries) = true /\
  exists config',
    mutate sample_request (sample_config two_entries) = inr config' /\
    process_rag str_code_detail upstream sample_request [] =
    (inr (JObj [("status", JStr "success");
                ("message",
                  JStr "RAG configuration completed successfully")]),
     [EvRequest (index_post sample_request);
      EvRequest (index_get sample_request);
      EvRequest (agent_get sample_request);
      EvRequest (agent_put sample_request config')]).
Proof.
  split; [reflexivity|]. split; [reflexivity|]. split; [reflexivity|].
  apply (activation_succeeds str_code_detail (smooth_upstream two_entries)
           sample_request [] (sample_config two_entries));
    reflexivity.
Defined.

Lemma undecodable_poll_answer :
  let fault :=
    LibraryError "JSONDecodeError"
      "Expecting value: line 1 column 1 (char 0)" in
  let upstream :=
    scripted [ok JNull; Responds (mkResponse 200 (inl fault))] in
  let events :=
    [EvRequest (index_post sample_request);
     EvRequest (index_get sample_request)] in
  step_fault upstream sample_request [] fault events /\
  process_rag str_code_detail upstream sample_request [] =
  (inl (HTTPException 500 "Expecting value: line 1 column 1 (char 0)"),
   events) /\
  forall t0 t1 x,
    process_rag str_code_detail upstream sample_request t0 = (inl x, t1) ->
    exists e0,
      x = HTTPException 500 (str str_code_detail e0) /\
      (step_fault upstream sample_request t0 e0 t1 \/ own_failure e0).
Proof.
  cbv zeta.
  assert (step_fault
            (scripted
               [ok JNull;
                Responds
                  (mkResponse 200
                     (inl (LibraryError "JSONDecodeError"
                             "Expecting value: line 1 column 1 (char 0)")))])
            sample_request []
            (LibraryError "JSONDecodeError"
               "Expecting value: line 1 column 1 (char 0)")
            [EvRequest (index_post sample_request);
             EvRequest (index_get sample_request)]) as Hfault.
  { apply (poll_decoding
             (scripted
                [ok JNull;
                 Responds
                   (mkResponse 200
                      (inl (LibraryError "JSONDecodeError"
                              "Expecting value: line 1 column 1 (char 0)")))])
             sample_request []
             (mkResponse 200
                (inl (LibraryError "JSONDecodeError"
                        "Expecting value: line 1 column 1 (char 0)"))));
      reflexivity. }
  split; [exact Hfault|].
  exact (faults_leave_as_http_500 str_code_detail _ sample_request [] _ _
           Hfault).
Defined.

Lemma no_match_among_a_and_c :
  let kb := [entry "a" "prompt"; entry "c" "prompt"] in
  let upstream := smooth_upstream kb in
  forallb (fun doc => negb (matches sample_request doc)) kb = true /\
  serialisable (sample_config kb) = true /\
  exists config',
    mutate sample_request (sample_config kb) = inr config' /\
    process_rag str_code_detail upstream sample_request [] =
    (inr success,
     [EvRequest (index_post sample_request);
      EvRequest (index_get sample_request);
      EvRequest (agent_get sample_request);
      EvRequest (agent_put sample_request config')]) /\
    knowledge_base config' = Some kb.
Proof.
  split; [reflexivity|]. split; [reflexivity|].
  apply (missing_match_is_no_error str_code_detail
           (smooth_upstream [entry "a" "prompt"; entry "c" "prompt"])
           sample_request []
           (sample_config [entry "a" "prompt"; entry "c" "prompt"])
           [entry "a" "prompt"; entry "c" "prompt"]);
    reflexivity.
Defined.

Lemma two_matches_among_three :
  let kb := [entry "b" "prompt"; entry "a" "prompt"; entry "b" "disabled"] in
  let upstream := smooth_upstream kb in
  map (matches sample_request) kb = [true; false; true] /\
  exists config' docs',
    mutate sample_request (sample_config kb) = inr config' /\
    snd (process_rag str_code_detail upstream sample_request []) =
    ([EvRequest (index_post sample_request);
      EvRequest (index_get sample_request);
      EvRequest (agent_get sample_request)] ++
       (if serialisable config'
        then [EvRequest (agent_put sample_request config')] else []))%list /\
    knowledge_base config' = Some docs' /\
    List.length docs' = List.length kb /\
    forall i doc,
      nth_error kb i = Some doc -> matches sample_request doc = true ->
      exists doc', nth_error docs' i = Some doc' /\ is_auto doc' = true.
Proof.
  split; [reflexivity|].
  apply (every_matching_entry_is_set str_code_detail
           (smooth_upstream
              [entry "b" "prompt"; entry "a" "prompt"; entry "b" "disabled"])
           sample_request []
           (sample_config
              [entry "b" "prompt"; entry "a" "prompt"; entry "b" "disabled"])
           [entry "b" "prompt"; entry "a" "prompt"; entry "b" "disabled"]);
    reflexivity.
Defined.

Lemma empty_talk_fails :
  let upstream := scripted [ok (JObj [("reply", JStr "hello")])] in
  messages empty_talk = [] /\
  handle_conversation str_code_detail reject_non_str upstream empty_talk [] =
  (inl (HTTPException 500 "list index out of range"),
   [EvRequest (conversation_post empty_talk)]).
Proof.
  split; [reflexivity|].
  apply (empty_conversation_fails_with_500 str_code_detail reject_non_str
           (scripted [ok (JObj [("reply", JStr "hello")])]) empty_talk []
           (mkResponse 200 (inr (JObj [("reply", JStr "hello")]))));
    reflexivity.
Defined.

(** ** The further properties at concrete runs *)

Lemma rejected_poll_at_503 :
  let upstream :=
    scripted [ok JNull; Responds (mkResponse 503 (inr JNull))] in
  accepted (upstream [] (index_post sample_request)) = true /\
  503 <> 200 /\
  process_rag str_code_detail upstream sample_request [] =
  (inl (HTTPException 500 "503: Failed to check indexing status"),
   [EvRequest (index_post sample_request);
    EvRequest (index_get sample_request)]).
Proof.
  split; [reflexivity|]. split; [lia|].
  apply (rejected_poll_leaves_with_500 str_code_detail
           (scripted [ok JNull; Responds (mkResponse 503 (inr JNull))])
           sample_request [] (mkResponse 503 (inr JNull)));
    [reflexivity|reflexivity|simpl; lia].
Defined.

Lemma rejected_fetch_at_404 :
  let upstream :=
    scripted [ok JNull; ok (status_body "SUCCEEDED");
              Responds (mkResponse 404 (inr JNull))] in
  accepted (upstream [] (index_post sample_request)) = true /\
  404 <> 200 /\
  process_rag str_code_detail upstream sample_request [] =
  (inl (HTTPException 500 "404: Failed to get agent configuration"),
   [EvRequest (index_post sample_request);
    EvRequest (index_get sample_request);
    EvRequest (agent_get sample_request)]).
Proof.
  split; [reflexivity|]. split; [lia|].
  apply (rejected_fetch_leaves_with_500 str_code_detail
           (scripted [ok JNull; ok (status_body "SUCCEEDED");
                      Responds (mkResponse 404 (inr JNull))])
           sample_request [] (mkResponse 404 (inr JNull)));
    [reflexivity|reflexivity|reflexivity|simpl; lia].
Defined.

Lemma rejected_write_back_at_422 :
  let upstream :=
    scripted [ok JNull; ok (status_body "SUCCEEDED");
              ok (sample_config two_entries);
              Responds (mkResponse 422 (inr JNull))] in
  well_formed_config (sample_config two_entries) = true /\
  serialisable (sample_config two_entries) = true /\
  422 <> 200 /\
  exists config',
    mutate sample_request (sample_config two_entries) = inr config' /\
    process_rag str_code_detail upstream sample_request [] =
    (inl (HTTPException 500 "422: Failed to update agent configuration"),
     [EvRequest (index_post sample_request);
      EvRequest (index_get sample_request);
      EvRequest (agent_get sample_request);
      EvRequest (agent_put sample_request config')]).
Proof.
  split; [reflexivity|]. split; [reflexivity|]. split; [lia|].
  apply (rejected_write_back_leaves_with_500 str_code_detail
           (scripted [ok JNull; ok (status_body "SUCCEEDED");
                      ok (sample_config two_entries);
                      Responds (mkResponse 422 (inr JNull))])
           sample_request [] (sample_config two_entries)
           (mkResponse 422 (inr JNull)));
    [reflexivity|reflexivity|reflexivity|reflexivity|reflexivity
    |intros config' _; reflexivity|simpl; lia].
Defined.

Lemma success_of_two_entries :
  let upstream := smooth_upstream two_entries in
  let fetch :=
    [EvRequest (index_post sample_request);
     EvRequest (index_get sample_request);
     EvRequest (agent_get sample_request)] in
  process_rag str_code_detail upstream sample_request [] =
  (inr success,
   (fetch ++ [EvRequest (agent_put sample_request written_sample)])%list) /\
  exists config config',
    parsed
      (upstream
         [EvRequest (index_post sample_request);
          EvRequest (index_get sample_request)]
         (agent_get sample_request)) = Some config /\
    mutate sample_request config = inr config' /\
    written_back sample_request config config' /\
    accepted (upstream fetch (agent_put sample_request config')) = true /\
    (fetch ++ [EvRequest (agent_put sample_request written_sample)])%list =
    (fetch ++ [EvRequest (agent_put sample_request config')])%list.
Proof.
  split; [reflexivity|].
  apply (success_means_all_steps_passed str_code_detail
           (smooth_upstream two_entries) sample_request []
           [EvRequest (index_post sample_request);
            EvRequest (index_get sample_request);
            EvRequest (agent_get sample_request);
            EvRequest (agent_put sample_request written_sample)]
           success eq_refl).
Defined.

Lemma mutate_twice_two_entries :
  mutate sample_request (sample_config two_entries) = inr written_sample /\
  mutate sample_request written_sample = inr written_sample.
Proof.
  split; [reflexivity|].
  apply (mutate_idempotent sample_request (sample_config two_entries)
           written_sample).
  reflexivity.
Defined.

Lemma fetch_without_knowledge_base :
  let prompt := [("prompt", JStr "You are helpful.")] in
  let agent := [("prompt", JObj prompt)] in
  let config := [("agent", JObj agent)] in
  let upstream :=
    scripted [ok JNull; ok (status_body "SUCCEEDED"); ok (JObj config)] in
  dict_get "knowledge_base" prompt = None /\
  process_rag str_code_detail upstream sample_request [] =
  (inl (HTTPException 500 "'knowledge_base'"),
   [EvRequest (index_post sample_request);
    EvRequest (index_get sample_request);
    EvRequest (agent_get sample_request)]).
Proof.
  split; [reflexivity|].
  apply (missing_knowledge_base_leaves_with_500 str_code_detail
           (scripted [ok JNull; ok (status_body "SUCCEEDED");
                      ok (JObj [("agent",
                                 JObj [("prompt",
                                        JObj [("prompt",
                                               JStr "You are helpful.")])])])])
           sample_request []
           [("agent",
             JObj [("prompt", JObj [("prompt", JStr "You are helpful.")])])]
           [("prompt", JObj [("prompt", JStr "You are helpful.")])]
           [("prompt", JStr "You are helpful.")]);
    reflexivity.
Defined.

Lemma entry_without_id_after_a_match :
  let kb := [entry "b" "prompt"; JObj [("type", JStr "file")]] in
  let upstream := smooth_upstream kb in
  forallb has_id kb = false /\
  exists e,
    process_rag str_code_detail upstream sample_request [] =
    (inl (HTTPException 500 (str str_code_detail e)),
     [EvRequest (index_post sample_request);
      EvRequest (index_get sample_request);
      EvRequest (agent_get sample_request)]).
Proof.
  split; [reflexivity|].
  apply (malformed_entry_blocks_write_back str_code_detail
           (smooth_upstream
              [entry "b" "prompt"; JObj [("type", JStr "file")]])
           sample_request []
           (sample_config [entry "b" "prompt"; JObj [("type", JStr "file")]])
           [entry "b" "prompt"; JObj [("type", JStr "file")]]);
    reflexivity.
Defined.

Lemma lower_case_succeeded_is_not_finished :
  let upstream := scripted [ok JNull; ok (status_body "succeeded")] in
  reported_status
    (upstream [EvRequest (index_post sample_request)]
       (index_get sample_request)) = Some (JStr "succeeded") /\
  process_rag str_code_detail upstream sample_request [] =
  (inl (HTTPException 500
          "object NoneType can't be used in 'await' expression"),
   [EvRequest (index_post sample_request);
    EvRequest (index_get sample_request); EvSleep 5]).
Proof.
  split; [reflexivity|].
  apply (other_status_is_not_finished str_code_detail
           (scripted [ok JNull; ok (status_body "succeeded")])
           sample_request [] (JStr "succeeded"));
    [reflexivity|reflexivity|discriminate|discriminate].
Defined.

Lemma rejected_relay_at_401 :
  let upstream := scripted [Responds (mkResponse 401 (inr JNull))] in
  401 <> 200 /\
  handle_conversation str_code_detail reject_non_str upstream
    (talk "hello") [] =
  (inl (HTTPException 500 "401: Failed to process conversation"),
   [EvRequest (conversation_post (talk "hello"))]).
Proof.
  split; [lia|].
  apply (rejected_relay_leaves_with_500 str_code_detail reject_non_str
           (scripted [Responds (mkResponse 401 (inr JNull))])
           (talk "hello") [] (mkResponse 401 (inr JNull)));
    [reflexivity|simpl; lia].
Defined.

Lemma thanks_is_relayed :
  let upstream := scripted [ok (JArr [JStr "You are welcome."])] in
  is_farewell "thanks" = false /\
  handle_conversation str_code_detail reject_non_str upstream
    (talk "thanks") [] =
  (inr (JArr [JStr "You are welcome."]),
   [EvRequest (conversation_post (talk "thanks"))]).
Proof.
  split; [reflexivity|].
  apply (conversation_without_farewell_is_relayed str_code_detail
           reject_non_str
           (scripted [ok (JArr [JStr "You are welcome."])])
           (talk "thanks") []
           [mkMessage "user" "What is in the report?"]
           (mkMessage "user" "thanks")
           (JArr [JStr "You are welcome."]));
    reflexivity.
Defined.

Lemma bye_without_document_is_relayed :
  let answer := JObj [("reply", JStr "See you.")] in
  let upstream := scripted [ok answer] in
  is_farewell "Bye" = true /\
  truthy JNull = false /\
  handle_conversation str_code_detail reject_non_str upstream
    (talk "Bye") [] =
  (inr answer, [EvRequest (conversation_post (talk "Bye"))]).
Proof.
  split; [reflexivity|]. split; [reflexivity|].
  apply (farewell_without_document_is_relayed str_code_detail
           reject_non_str
           (scripted [ok (JObj [("reply", JStr "See you.")])])
           (talk "Bye") []
           [mkMessage "user" "What is in the report?"]
           (mkMessage "user" "Bye")
           (JObj [("reply", JStr "See you.")]) JNull);
    reflexivity.
Defined.

Lemma goodbye_runs_the_activation :
  let upstream :=
    scripted [ok (JObj relay_answer); ok JNull;
              ok (status_body "SUCCEEDED"); ok (sample_config two_entries);
              ok JNull] in
  is_farewell "Goodbye" = true /\
  handle_conversation str_code_detail reject_non_str upstream
    (talk "Goodbye") [] =
  (inr (JObj [("reply", JStr "See you."); ("document_id", JStr "b");
              ("rag_status", JStr "processed")]),
   [EvRequest (conversation_post (talk "Goodbye"));
    EvRequest (index_post sample_request);
    EvRequest (index_get sample_request);
    EvRequest (agent_get sample_request);
    EvRequest (agent_put sample_request written_sample)]).
Proof.
  split; [reflexivity|].
  apply (farewell_runs_the_activation str_code_detail reject_non_str
           (scripted [ok (JObj relay_answer); ok JNull;
                      ok (status_body "SUCCEEDED");
                      ok (sample_config two_entries); ok JNull])
           (talk "Goodbye") []
           [mkMessage "user" "What is in the report?"]
           (mkMessage "user" "Goodbye") relay_answer "b");
    [reflexivity|reflexivity|reflexivity|reflexivity|discriminate].
Defined.

Lemma end_with_rejected_submit_fails :
  let upstream :=
    scripted [ok (JObj relay_answer);
              Responds (mkResponse 404 (inr JNull))] in
  is_farewell "END" = true /\
  exists detail,
    HTTPException 500 "404: Failed to index document"
    = HTTPException 500 detail /\
    handle_conversation str_code_detail reject_non_str upstream
      (talk "END") [] =
    (inl (HTTPException 500 (str_code_detail 500 detail)),
     [EvRequest (conversation_post (talk "END"));
      EvRequest (index_post sample_request)]).
Proof.
  split; [reflexivity|].
  apply (failed_activation_fails_the_conversation str_code_detail
           reject_non_str
           (scripted [ok (JObj relay_answer);
                      Responds (mkResponse 404 (inr JNull))])
           (talk "END") []
           [mkMessage "user" "What is in the report?"]
           (mkMessage "user" "END") relay_answer "b"
           (HTTPException 500 "404: Failed to index document"));
    [reflexivity|reflexivity|reflexivity|reflexivity|discriminate
    |reflexivity].
Defined.

Lemma bye_with_a_list_answer_fails :
  let upstream := scripted [ok (JArr [JStr "See you."])] in
  is_farewell "bye" = true /\
  handle_conversation str_code_detail reject_non_str upstream
    (talk "bye") [] =
  (inl (HTTPException 500 "'list' object has no attribute 'get'"),
   [EvRequest (conversation_post (talk "bye"))]).
Proof.
  split; [reflexivity|].
  apply (farewell_needs_a_dict str_code_detail reject_non_str
           (scripted [ok (JArr [JStr "See you."])])
           (talk "bye") []
           [mkMessage "user" "What is in the report?"]
           (mkMessage "user" "bye")
           (JArr [JStr "See you."]));
    [reflexivity|reflexivity|reflexivity|discriminate].
Defined.

Lemma goodbye_in_capitals :
  same_ignoring_case "GoodBYE" "goodbye" = true /\
  is_farewell "GoodBYE" = is_farewell "goodbye".
Proof.
  split; [reflexivity|].
  apply (farewell_ignores_case "GoodBYE" "goodbye"). reflexivity.
Defined.
